(** * Oasis: the date-range splitter of [helpers.py]

  A shallow embedding of [split_dates_by_limit], the function that cuts a
  [start_date .. end_date] request into chunks that respect the day limit
  of an API, together with the part of pandas it rests on.

  Modelling conventions
  - a [pd.Timestamp] is its count of nanoseconds since 1970-01-01, a
    [pd.Timedelta] a count of nanoseconds, both signed 64-bit: the
    operations of the library that leave that range raise, and so do the
    ones of the model;
  - a date pattern is the pair of functions pandas derives from it: the
    parser of [pd.to_datetime(_, format=_)] and the printer of
    [Timestamp.strftime].  Patterns have day resolution, as the dates of
    the callers do: a parsed string is the midnight of a calendar day;
  - Python effects are explicit: a computation may raise, and it threads
    the lines written to standard output. *)

From Stdlib Require Import ZArith QArith Qround List String Ascii Bool Lia.
Import ListNotations.
Local Open Scope Z_scope.

(* ===================================================================== *)
(** ** Python computations: exceptions and standard output *)
(* ===================================================================== *)

Inductive exn : Type :=
| ValueError          (* raised by pd.to_datetime on a string it cannot parse *)
| OutOfBoundsDatetime (* a ValueError: a pd.Timestamp outside its 64 bits *)
| OverflowError       (* raised by pd.Timedelta(days=n) outside its 64 bits *)
| ZeroDivisionError.  (* raised by Timedelta / Timedelta(0) *)

Inductive outcome (A : Type) : Type :=
| Raised (e : exn)
| Returned (a : A).
Arguments Raised {A} e.
Arguments Returned {A} a.

(** A computation over a store [S]: it ends by returning or by raising, and
    the store survives a raise (Python lists mutated before the exception
    stay mutated). *)
Definition SE (S A : Type) : Type := S -> outcome A * S.

Definition ret {S A} (a : A) : SE S A := fun s => (Returned a, s).

Definition raise {S A} (e : exn) : SE S A := fun s => (Raised e, s).

Definition bind {S A B} (c : SE S A) (k : A -> SE S B) : SE S B :=
  fun s =>
    match c s with
    | (Returned a, s') => k a s'
    | (Raised e, s') => (Raised e, s')
    end.

Definition try_except {S A} (c : SE S A) (handler : exn -> SE S A) : SE S A :=
  fun s =>
    match c s with
    | (Returned a, s') => (Returned a, s')
    | (Raised e, s') => handler e s'
    end.

Declare Scope py_scope.
Delimit Scope py_scope with py.
Notation "x <- c ;; k" := (bind c (fun x => k))
  (at level 61, c at next level, right associativity) : py_scope.
Notation "c ;; k" := (bind c (fun _ => k))
  (at level 61, right associativity) : py_scope.
Local Open Scope py_scope.

(** Standard output: the lines printed so far. *)
Definition stdout : Type := list string.

(** A function body whose only store is standard output. *)
Definition Py (A : Type) : Type := SE stdout A.

(* ===================================================================== *)
(** ** The calendar *)
(* ===================================================================== *)

Module Calendar.

Definition is_leap (y : Z) : bool :=
  ((y mod 4 =? 0) && negb (y mod 100 =? 0)) || (y mod 400 =? 0).

Definition days_in_month (y m : Z) : Z :=
  if m =? 2 then (if is_leap y then 29 else 28)
  else if (m =? 4) || (m =? 6) || (m =? 9) || (m =? 11) then 30
  else 31.

(** Day number (days since 1970-01-01) of a proleptic Gregorian date. *)
Definition days_from_civil (y m d : Z) : Z :=
  let y' := if m <=? 2 then y - 1 else y in
  let era := y' / 400 in
  let yoe := y' - era * 400 in
  let doy := (153 * (if 2 <? m then m - 3 else m + 9) + 2) / 5 + d - 1 in
  let doe := yoe * 365 + yoe / 4 - yoe / 100 + doy in
  era * 146097 + doe - 719468.

(** The date (year, month, day) of a day number. *)
Definition civil_from_days (z : Z) : Z * Z * Z :=
  let z' := z + 719468 in
  let era := z' / 146097 in
  let doe := z' - era * 146097 in
  let yoe := (doe - doe / 1460 + doe / 36524 - doe / 146096) / 365 in
  let doy := doe - (365 * yoe + yoe / 4 - yoe / 100) in
  let mp := (5 * doy + 2) / 153 in
  let d := doy - (153 * mp + 2) / 5 + 1 in
  let m := if mp <? 10 then mp + 3 else mp - 9 in
  ((if m <=? 2 then yoe + era * 400 + 1 else yoe + era * 400), m, d).

End Calendar.

(* ===================================================================== *)
(** ** pandas: timestamps, durations, date patterns *)
(* ===================================================================== *)

Module Pandas.

Definition Timestamp : Type := Z.
Definition Timedelta : Type := Z.

Definition NS_PER_DAY : Z := 86400000000000.

(** Both kinds of value are signed 64-bit counts of nanoseconds, the least
    64-bit number standing for [NaT]: [Timestamp.min] is
    1677-09-21 00:12:43.145224193 and [Timestamp.max] is
    2262-04-11 23:47:16.854775807. *)
Definition INT64_MAX : Z := 9223372036854775807.

Definition in_range (v : Z) : bool := (- INT64_MAX <=? v) && (v <=? INT64_MAX).

(** The days whose midnight a [pd.Timestamp] holds, 1677-09-22 to
    2262-04-11; a [pd.Timedelta] holds up to as many whole days. *)
Definition Timestamp_min_day : Z := -106751.
Definition Timestamp_max_day : Z := 106751.

(** [pd.Timedelta(days=n)] *)
Definition Timedelta_days {S} (n : Z) : SE S Timedelta :=
  if in_range (n * NS_PER_DAY) then ret (n * NS_PER_DAY) else raise OverflowError.

(** [pd.Timedelta(n)]: a bare number is a count of nanoseconds. *)
Definition Timedelta_value (n : Z) : Timedelta := n.

(** [Timestamp + Timedelta] *)
Definition Timestamp_add {S} (t : Timestamp) (d : Timedelta) : SE S Timestamp :=
  if in_range (t + d) then ret (t + d) else raise OutOfBoundsDatetime.

(** [Timestamp - Timedelta] *)
Definition Timestamp_sub {S} (t : Timestamp) (d : Timedelta) : SE S Timestamp :=
  if in_range (t - d) then ret (t - d) else raise OutOfBoundsDatetime.

(** [Timestamp - Timestamp] *)
Definition Timestamp_diff {S} (a b : Timestamp) : SE S Timedelta :=
  if in_range (a - b) then ret (a - b) else raise OutOfBoundsDatetime.

(** The calendar day (day number) a timestamp falls on. *)
Definition date_of (t : Timestamp) : Z := t / NS_PER_DAY.

(** [Timedelta / Timedelta]: the quotient of the two durations, a float in
    Python.  Both operands are whole days here, so the float quotient is
    the correctly rounded rational and has the same ceiling; the model
    keeps the rational.  A zero divisor raises. *)
Definition truediv {S} (a b : Timedelta) : SE S Q :=
  if b =? 0 then raise ZeroDivisionError
  else ret (inject_Z a / inject_Z b)%Q.

(** [math.ceil] *)
Definition ceil (q : Q) : Z := Qceiling q.

(** What pandas derives from a date pattern: [strptime] reads the calendar
    day a string names ([None]: the string does not match, and
    [pd.to_datetime] raises [ValueError]); [strftime] writes a day. *)
Record Format : Type := {
  strptime : string -> option Z;
  strftime : Z -> string
}.

(** [pd.to_datetime(s, format=f)]: the midnight of the day read, when a
    [pd.Timestamp] can hold it. *)
Definition to_datetime {S} (s : string) (f : Format) : SE S Timestamp :=
  match strptime f s with
  | Some d =>
      if in_range (d * NS_PER_DAY) then ret (d * NS_PER_DAY)
      else raise OutOfBoundsDatetime
  | None => raise ValueError
  end.

(** [t.strftime(f)] *)
Definition Timestamp_strftime (f : Format) (t : Timestamp) : string :=
  strftime f (date_of t).

End Pandas.
Import Pandas.

(* ===================================================================== *)
(** ** Date patterns built from numeric directives *)
(* ===================================================================== *)

(** The patterns of this repository, ["%m/%d/%y"] (the default of
    [split_dates_by_limit]) and ["%Y%m%d"] (the call in [main.py]), use the
    directives [%m], [%d], [%y], [%Y] and literal characters.  A directive
    matches as the regular expression that [strptime] compiles it to; the
    alternatives of an expression are tried in order.  A string is the
    sequence of its characters, with codes below 256: among those the
    decimal digits that [\d] matches are 0 to 9.  The parsers are those of
    [strptime].  Under ["%Y%m%d"] pandas 1.x first tries to read the string
    as a number, and so reads more strings than [strptime] does (eight
    digits between blanks, for one); that path is not part of the model,
    and the statements below use [Ymd] on strings that it reads only. *)
Module Pattern.

Inductive directive : Type :=
| pct_m | pct_d | pct_y | pct_Y
| lit (c : ascii).

(** The directives of a pattern string; [None] for a directive that is
    not covered. *)
Fixpoint compile (s : string) : option (list directive) :=
  match s with
  | EmptyString => Some []
  | String "%" (String c s') =>
      match (if Ascii.eqb c "m" then Some pct_m
             else if Ascii.eqb c "d" then Some pct_d
             else if Ascii.eqb c "y" then Some pct_y
             else if Ascii.eqb c "Y" then Some pct_Y
             else if Ascii.eqb c "%" then Some (lit "%")
             else None), compile s' with
      | Some d, Some ds => Some (d :: ds)
      | _, _ => None
      end
  | String c s' =>
      if Ascii.eqb c "%" then None
      else option_map (cons (lit c)) (compile s')
  end.

(** The fields [strptime] collects, with its defaults. *)
Record fields : Type := { year : Z; month : Z; day : Z }.

Definition defaults : fields := {| year := 1900; month := 1; day := 1 |}.

(** A decimal digit between [lo] and [hi]. *)
Definition rng (lo hi : Z) (c : ascii) : option Z :=
  let v := Z.of_N (N_of_ascii c) - 48 in
  if (lo <=? v) && (v <=? hi) then Some v else None.

Definition one (p : ascii -> option Z) (cs : list ascii) : list (Z * list ascii) :=
  match cs with
  | a :: r => match p a with Some x => [(x, r)] | None => [] end
  | [] => []
  end.

Definition two (p q : ascii -> option Z) (cs : list ascii) : list (Z * list ascii) :=
  match cs with
  | a :: b :: r =>
      match p a, q b with
      | Some x, Some y => [(10 * x + y, r)]
      | _, _ => []
      end
  | _ => []
  end.

(** [1[0-2]|0[1-9]|[1-9]] *)
Definition match_m (cs : list ascii) : list (Z * list ascii) :=
  two (rng 1 1) (rng 0 2) cs ++ two (rng 0 0) (rng 1 9) cs ++ one (rng 1 9) cs.

(** [3[0-1]|[1-2]\d|0[1-9]|[1-9]| [1-9]] *)
Definition match_d (cs : list ascii) : list (Z * list ascii) :=
  two (rng 3 3) (rng 0 1) cs ++ two (rng 1 2) (rng 0 9) cs
  ++ two (rng 0 0) (rng 1 9) cs ++ one (rng 1 9) cs
  ++ two (fun c => if Ascii.eqb c " " then Some 0 else None) (rng 1 9) cs.

(** [\d\d] *)
Definition match_y (cs : list ascii) : list (Z * list ascii) :=
  two (rng 0 9) (rng 0 9) cs.

(** [\d\d\d\d] *)
Definition match_Y (cs : list ascii) : list (Z * list ascii) :=
  flat_map (fun '(hi, r) => map (fun '(lo, r') => (100 * hi + lo, r')) (match_y r))
           (match_y cs).

(** One directive against the head of the input: the fields and the
    rest of the input for every alternative that matches. *)
Definition step (d : directive) (fs : fields) (cs : list ascii)
  : list (fields * list ascii) :=
  match d with
  | pct_m => map (fun '(v, r) => ({| year := year fs; month := v; day := day fs |}, r))
                 (match_m cs)
  | pct_d => map (fun '(v, r) => ({| year := year fs; month := month fs; day := v |}, r))
                 (match_d cs)
  | pct_y => map (fun '(v, r) =>
                    ({| year := if v <=? 68 then v + 2000 else v + 1900;
                        month := month fs; day := day fs |}, r))
                 (match_y cs)
  | pct_Y => map (fun '(v, r) => ({| year := v; month := month fs; day := day fs |}, r))
                 (match_Y cs)
  | lit c => match cs with
             | a :: r => if Ascii.eqb a c then [(fs, r)] else []
             | [] => []
             end
  end.

Fixpoint matches (ds : list directive) (fs : fields) (cs : list ascii)
  : list (fields * list ascii) :=
  match ds with
  | [] => [(fs, cs)]
  | d :: ds' => flat_map (fun '(fs', cs') => matches ds' fs' cs') (step d fs cs)
  end.

(** The first match decides; it must consume the whole string, and the
    day must exist in its month. *)
Definition parse (ds : list directive) (s : string) : option Z :=
  match matches ds defaults (list_ascii_of_string s) with
  | (fs, []) :: _ =>
      if day fs <=? Calendar.days_in_month (year fs) (month fs)
      then Some (Calendar.days_from_civil (year fs) (month fs) (day fs))
      else None
  | _ => None
  end.

Definition digit_char (v : Z) : ascii := ascii_of_N (Z.to_N (48 + v)).

Definition two_digits (n : Z) : string :=
  String (digit_char (n / 10)) (String (digit_char (n mod 10)) EmptyString).

Definition print_directive (y m d : Z) (x : directive) : string :=
  match x with
  | pct_m => two_digits m
  | pct_d => two_digits d
  | pct_y => two_digits (y mod 100)
  | pct_Y => two_digits (y / 100) ++ two_digits (y mod 100)
  | lit c => String c EmptyString
  end.

Definition render (ds : list directive) (z : Z) : string :=
  let '(y, m, d) := Calendar.civil_from_days z in
  String.concat EmptyString (map (print_directive y m d) ds).

Definition format (ds : list directive) : Format :=
  {| strptime := parse ds; strftime := render ds |}.

(** ["%m/%d/%y"] *)
Definition mdy : Format := format [pct_m; lit "/"; pct_d; lit "/"; pct_y].

(** ["%Y%m%d"] *)
Definition Ymd : Format := format [pct_Y; pct_m; pct_d].

End Pattern.

(* ===================================================================== *)
(** ** helpers.split_dates_by_limit *)
(* ===================================================================== *)

(** The variables the loop updates. *)
Record locals : Type := {
  start_dates : list Timestamp;
  end_dates : list Timestamp;
  new_start_date : Timestamp;
  new_end_date : Timestamp
}.

(** The body of the [try] block runs over the locals and standard output. *)
Definition Block (A : Type) : Type := SE (locals * stdout) A.

Definition get_locals : Block locals := fun s => (Returned (fst s), s).

Definition assign (f : locals -> locals) : Block unit :=
  fun s => (Returned tt, (f (fst s), snd s)).

Definition print (line : string) : Block unit :=
  fun s => (Returned tt, (fst s, snd s ++ [line])).

(** Run a block from the given locals; the locals it leaves are returned
    with its value, an exception it lets through propagates. *)
Definition with_locals {A} (vars : locals) (c : Block A) : Py (A * locals) :=
  fun out =>
    match c (vars, out) with
    | (Returned a, (vars', out')) => (Returned (a, vars'), out')
    | (Raised e, (_, out')) => (Raised e, out')
    end.

(** [while cond: body], for at most [n] rounds. *)
Fixpoint while_ (n : nat) (cond : locals -> bool) (body : Block unit) : Block unit :=
  match n with
  | O => ret tt
  | S n' =>
      vars <- get_locals ;;
      if cond vars then body ;; while_ n' cond body else ret tt
  end.

(** The dictionary the function returns. *)
Definition dict : Type := list (string * list string).

(** The line the handler of the [try] block prints. *)
Definition critical : string :=
  "Critical Failed to split start and end dates for API calls.".

(** Lines 158-169: one round of the loop.  A date that leaves the range of
    [pd.Timestamp] raises where it is computed, after the assignments
    before it. *)
Definition loop_body (dt_end_date : Timestamp) (limit : Timedelta) : Block unit :=
  assign (fun v => {| start_dates := start_dates v ++ [new_start_date v];
                      end_dates := end_dates v;
                      new_start_date := new_start_date v;
                      new_end_date := new_end_date v |}) ;;
  v <- get_locals ;;
  t <- Timestamp_add (new_start_date v) limit ;;
  assign (fun v => {| start_dates := start_dates v;
                      end_dates := end_dates v;
                      new_start_date := t;
                      new_end_date := new_end_date v |}) ;;
  v <- get_locals ;;
  further <- (if new_end_date v <? dt_end_date
              then d <- Timestamp_diff dt_end_date (new_end_date v) ;; ret (d >? limit)
              else ret false) ;;
  if further : bool
  then
    t <- Timestamp_add (new_end_date v) limit ;;
    assign (fun v => {| start_dates := start_dates v;
                        end_dates := end_dates v ++ [t];
                        new_start_date := new_start_date v;
                        new_end_date := new_end_date v |}) ;;
    t <- Timestamp_add (new_end_date v) limit ;;
    assign (fun v => {| start_dates := start_dates v;
                        end_dates := end_dates v;
                        new_start_date := new_start_date v;
                        new_end_date := t |})
  else
    d <- Timestamp_diff dt_end_date (new_end_date v) ;;
    t <- Timestamp_add (new_end_date v) d ;;
    assign (fun v => {| start_dates := start_dates v;
                        end_dates := end_dates v ++ [t];
                        new_start_date := new_start_date v;
                        new_end_date := new_end_date v |}).

(** The guard of the loop, [len(start_dates) < splits]. *)
Definition guard (splits : Z) (v : locals) : bool :=
  Z.of_nat (List.length (start_dates v)) <? splits.

(** Lines 157-169.  Every round appends one entry to [start_dates], so the
    guard fails after [splits - len(start_dates)] rounds at the latest
    (lemma [while_exit]). *)
Definition split_loop (splits : Z) (dt_end_date : Timestamp) (limit : Timedelta)
  : Block unit :=
  v <- get_locals ;;
  while_ (Z.to_nat (splits - Z.of_nat (List.length (start_dates v))))
         (guard splits) (loop_body dt_end_date limit).

Definition split_dates_by_limit (start_date end_date : string) (limit : Z)
    (date_format : Format) : Py (option dict) :=
  limit <- Timedelta_days limit ;;
  dt_start_date <- to_datetime start_date date_format ;;
  dt_end_date <- to_datetime end_date date_format ;;
  dt_delta <- Timestamp_diff dt_end_date dt_start_date ;;
  if limit >? dt_delta then ret None
  else
    new_start_date <- Timestamp_add dt_start_date limit ;;
    shifted <- Timestamp_add dt_start_date limit ;;
    new_end_date <- Timestamp_sub shifted (Timedelta_value 1) ;;
    let vars := {| start_dates := [dt_start_date];
                   end_dates := [new_end_date];
                   new_start_date := new_start_date;
                   new_end_date := new_end_date |} in
    q <- truediv dt_delta limit ;;
    let splits := ceil q in
    r <- with_locals vars
           (try_except (split_loop splits dt_end_date limit)
              (fun e => print critical)) ;;
    let start_dates := map (Timestamp_strftime date_format) (start_dates (snd r)) in
    let end_dates := map (Timestamp_strftime date_format) (end_dates (snd r)) in
    ret (Some [("start_dates"%string, start_dates); ("end_dates"%string, end_dates)]).

(* ===================================================================== *)
(** ** The closed form of the result *)
(* ===================================================================== *)

(** The quotient and its ceiling, in integers. *)
Definition ceil_div (a b : Z) : Z := - ((- a) / b).

(** The timestamps the loop builds, for a first timestamp [t0] and a limit
    [L]: [n] start dates, [n] end dates of full chunks. *)
Definition starts_upto (t0 L : Z) (n : nat) : list Timestamp :=
  map (fun i => t0 + Z.of_nat i * L) (seq 0 n).

Definition ends_upto (t0 L : Z) (n : nat) : list Timestamp :=
  map (fun i => t0 + (Z.of_nat i + 1) * L - 1) (seq 0 n).

(** The locals after [n - 1] rounds that all took the first branch. *)
Definition regular (t0 L : Z) (n : nat) : locals :=
  {| start_dates := starts_upto t0 L n;
     end_dates := ends_upto t0 L n;
     new_start_date := t0 + Z.of_nat n * L;
     new_end_date := t0 + Z.of_nat n * L - 1 |}.

(** The locals after a round that took the second branch. *)
Definition closing (t0 t1 L : Z) (n : nat) : locals :=
  {| start_dates := starts_upto t0 L (S n);
     end_dates := ends_upto t0 L n ++ [t1];
     new_start_date := t0 + Z.of_nat (S n) * L;
     new_end_date := t0 + Z.of_nat n * L - 1 |}.

(** The locals of a round that raised on line 160: the start date is
    appended, the next one is out of range. *)
Definition broken (t0 L : Z) (n : nat) : locals :=
  {| start_dates := starts_upto t0 L (S n);
     end_dates := ends_upto t0 L n;
     new_start_date := t0 + Z.of_nat n * L;
     new_end_date := t0 + Z.of_nat n * L - 1 |}.

(** First days of the first [n] full chunks. *)
Definition chunk_starts (s l : Z) (n : nat) : list Z :=
  map (fun i => s + Z.of_nat i * l) (seq 0 n).

(** Last days of the first [n] full chunks. *)
Definition chunk_ends (s l : Z) (n : nat) : list Z :=
  map (fun i => s + (Z.of_nat i + 1) * l - 1) (seq 0 n).

(** The number of chunks of [l] days that fit in the span. *)
Definition full_chunk_count (s e l : Z) : nat := Z.to_nat ((e - s) / l).

(** The first and the last days the function returns for the span from day
    [s] to day [e] under a limit of [l] days, when no date leaves the range
    of [pd.Timestamp]: the full chunks, and one more chunk up to [e] when
    the limit does not divide the span. *)
Definition split_days (s e l : Z) : list Z * list Z :=
  let k := full_chunk_count s e l in
  if (e - s) mod l =? 0
  then (chunk_starts s l k, chunk_ends s l k)
  else (chunk_starts s l (S k), chunk_ends s l k ++ [e]).

(** The returned dictionary for the given first and last days. *)
Definition dates_dict (f : Format) (sd ed : list Z) : dict :=
  [("start_dates"%string, map (strftime f) sd);
   ("end_dates"%string, map (strftime f) ed)].

(** [pd.to_datetime] reads the string as day [d]: the pattern matches and
    a [pd.Timestamp] holds the midnight of the day. *)
Definition reads (f : Format) (s : string) (d : Z) : Prop :=
  strptime f s = Some d /\ Timestamp_min_day <= d <= Timestamp_max_day.

(** The start date that the last round of the loop computes for a chunk
    after the last one: the first day past the last multiple of the limit
    that the span reaches. *)
Definition next_start (s e l : Z) : Z := s + ceil_div (e - s) l * l.

(** The locals the loop leaves, and how it is left, for a first timestamp
    [t0], a last timestamp [t1] and a limit [L] with
    [t1 - t0 = k * L + r]: [k] full chunks when the limit divides the
    span; else one more chunk up to [t1], unless the start date computed
    for the chunk after it is out of range. *)
Definition loop_end (t0 t1 L k r : Z) : outcome unit * locals :=
  if r =? 0 then (Returned tt, regular t0 L (Z.to_nat k))
  else if in_range (t0 + (k + 1) * L)
       then (Returned tt, closing t0 t1 L (Z.to_nat k))
       else (Raised OutOfBoundsDatetime, broken t0 L (Z.to_nat k)).

(* ===================================================================== *)
(** ** The other functions of helpers.py, and the requests of main.py *)
(* ===================================================================== *)

(** [print(x)] at the level of a function body: one more line on standard
    output. *)
Definition print_line (line : string) : Py unit :=
  fun out => (Returned tt, out ++ [line]).

(** [str] of a [datetime.date]: ISO format. *)
Definition date_str (d : Z) : string :=
  Pattern.render [Pattern.pct_Y; Pattern.lit "-"; Pattern.pct_m; Pattern.lit "-";
                  Pattern.pct_d] d.

(** A number in [w] decimal digits, zero padded. *)
Fixpoint digits (w : nat) (n : Z) : string :=
  match w with
  | O => EmptyString
  | S w' => digits w' (n / 10) ++ String (Pattern.digit_char (n mod 10)) EmptyString
  end.

(** [str] of a [pd.Timestamp]: date, time of day, and the fraction of the
    second when there is one, in microseconds or in nanoseconds. *)
Definition Timestamp_str (t : Timestamp) : string :=
  let ns := t mod NS_PER_DAY in
  let sec := ns / 1000000000 in
  let frac := ns mod 1000000000 in
  date_str (date_of t) ++ " "
  ++ Pattern.two_digits (sec / 3600) ++ ":"
  ++ Pattern.two_digits ((sec / 60) mod 60) ++ ":"
  ++ Pattern.two_digits (sec mod 60)
  ++ (if frac =? 0 then EmptyString
      else if frac mod 1000 =? 0 then "." ++ digits 6 (frac / 1000)
      else "." ++ digits 9 frac).

(** A DataFrame as [determine_timestamps] sees it: its index, a
    [DatetimeIndex] with at least one entry. *)
Record DatetimeIndex : Type := {
  first_stamp : Timestamp;
  more_stamps : list Timestamp
}.

Definition stamps (ix : DatetimeIndex) : list Timestamp :=
  first_stamp ix :: more_stamps ix.

(** [df.index.min()] and [df.index.max()] *)
Definition index_min (ix : DatetimeIndex) : Timestamp :=
  fold_left Z.min (more_stamps ix) (first_stamp ix).

Definition index_max (ix : DatetimeIndex) : Timestamp :=
  fold_left Z.max (more_stamps ix) (first_stamp ix).

(** helpers.determine_timestamps: the dates it returns are
    [datetime.date] values, day numbers here. *)
Definition determine_timestamps (df : DatetimeIndex) (start end_ : Timestamp)
  : Py (Z * Z) :=
  let start := date_of start in
  let end_ := date_of end_ in
  let data_start := index_min df in
  let data_end := index_max df in
  if start <? date_of data_start
  then
    print_line (date_str start) ;;
    print_line (Timestamp_str data_start) ;;
    ret (start, end_)
  else
    let start := date_of data_end + 1 in
    ret (start, end_).

Section AddDays.

(** [pd.Timestamp(date)] on a string: the general date parser of pandas,
    a parameter of the model ([None]: it raises [ValueError]). *)
Variable Timestamp_of_string : string -> option Timestamp.

(** helpers.add_days_to_date *)
Definition add_days_to_date (date : string) (add : Z) (format : Format) : Py string :=
  dt_date <- match Timestamp_of_string date with
             | Some t => ret t
             | None => raise ValueError
             end ;;
  delta <- Timedelta_days add ;;
  dt_date <- Timestamp_add dt_date delta ;;
  let new_str_date := Timestamp_strftime format dt_date in
  ret new_str_date.

End AddDays.

Section LatestCsv.

(** What [get_latest_csv] uses of the operating system and of pandas:
    the data frames and the exceptions, [isinstance(e, ValueError)] and
    [str(e)], the [ValueError] that [max] raises on an empty sequence,
    [glob.glob], [os.path.getctime], [pd.read_csv] and [os.remove] (with the
    exception it raises, if any). *)
Variables frame err : Type.
Variable is_ValueError : err -> bool.
Variable str_err : err -> string.
Variable max_empty : err.
Variable glob : string -> list string.
Variable getctime : string -> Z.
Variable read_csv : string -> frame + err.
Variable os_remove : string -> option err.

(** How a call of [get_latest_csv] ends. *)
Inductive csv_outcome : Type :=
| Csv_returned (df : frame)
| Csv_raised (e : err)
| Csv_UnboundLocalError.

(** [max(best :: files, key=os.path.getctime)]: the first file with the
    greatest key. *)
Fixpoint max_by_ctime (best : string) (files : list string) : string :=
  match files with
  | [] => best
  | x :: files' =>
      max_by_ctime (if getctime best <? getctime x then x else best) files'
  end.

(** helpers.get_latest_csv.  The comparison of the caught exception with
    a string on line 228 is false for every exception, so the handler falls
    through to [return df] with [df] unbound. *)
Definition get_latest_csv (filepath : string) (delete : bool)
  : stdout -> csv_outcome * stdout :=
  fun out =>
    let list_of_files := glob (filepath ++ "/*.csv") in
    match list_of_files with
    | [] => (Csv_UnboundLocalError, out ++ [str_err max_empty])
    | x :: files =>
        let latest_file := max_by_ctime x files in
        match read_csv latest_file with
        | inl df =>
            (Csv_returned df,
             if delete
             then match os_remove latest_file with
                  | Some e => out ++ [str_err e]
                  | None => out
                  end
             else out)
        | inr e =>
            if is_ValueError e
            then (Csv_UnboundLocalError, out ++ [str_err e])
            else (Csv_raised e, out)
        end
    end.

End LatestCsv.

Arguments Csv_returned {frame err} df.
Arguments Csv_raised {frame err} e.
Arguments Csv_UnboundLocalError {frame err}.

(** main.Oasis.get, as far as its requests go: the [startdatetime] and
    [enddatetime] of the payloads it sends, in the order it sends them
    (lines 137-144 and 159-165).  The downloads and the lines that
    [Oasis.get] prints around them are not part of the model: standard
    output carries what [split_dates_by_limit] prints.  A failed download
    is caught inside the loop and does not stop it. *)
Definition timestamp_adder : string := "T08:00-0000".

Definition payload (s_date e_date : string) : list (string * string) :=
  [("startdatetime"%string, (s_date ++ timestamp_adder)%string);
   ("enddatetime"%string, (e_date ++ timestamp_adder)%string)].

(** [d.get(key)]: the value under the first entry with that key. *)
Definition dict_get (key : string) (d : dict) : option (list string) :=
  option_map snd (find (fun kv => String.eqb (fst kv) key) d).

Definition Oasis_get_payloads (start_date end_date : string)
  : Py (list (list (string * string))) :=
  dates <- split_dates_by_limit start_date end_date 30 Pattern.Ymd ;;
  match dates with
  | None => ret [payload start_date end_date]
  | Some dates =>
      match dict_get "start_dates" dates, dict_get "end_dates" dates with
      | Some start_dates, Some end_dates =>
          ret (map (fun se => payload (fst se) (snd se))
                   (combine start_dates end_dates))
      | _, _ => ret []
      end
  end.

(* ===================================================================== *)
(** ** Proof steps *)
(* ===================================================================== *)

(** Unfold one round of the loop on given locals. *)
Ltac run_body :=
  unfold loop_body, bind, assign, get_locals, ret, raise;
  cbn [fst snd start_dates end_dates new_start_date new_end_date regular].

(* ===================================================================== *)
(** ** Ranges *)
(* ===================================================================== *)

Lemma in_range_true v : - INT64_MAX <= v <= INT64_MAX -> in_range v = true.
Proof.
  intros [H1 H2]. unfold in_range.
  apply andb_true_iff. split; apply Z.leb_le; assumption.
Qed.

Lemma in_range_false v : v < - INT64_MAX \/ INT64_MAX < v -> in_range v = false.
Proof.
  intros H. unfold in_range. apply andb_false_iff.
  destruct H; [left|right]; apply Z.leb_gt; assumption.
Qed.

Lemma NS_PER_DAY_gt_1 : 1 < NS_PER_DAY.
Proof. reflexivity. Qed.

(** A [pd.Timestamp] holds the midnight of day [d], and a [pd.Timedelta]
    holds [d] days, exactly for the days from 1677-09-22 to 2262-04-11. *)
Lemma in_range_days d :
  in_range (d * NS_PER_DAY) = true <-> Timestamp_min_day <= d <= Timestamp_max_day.
Proof.
  unfold in_range, INT64_MAX, NS_PER_DAY, Timestamp_min_day, Timestamp_max_day.
  rewrite andb_true_iff, !Z.leb_le. split; intros H; lia.
Qed.

Lemma days_bounds d :
  Timestamp_min_day <= d <= Timestamp_max_day ->
  - INT64_MAX < d * NS_PER_DAY - 1 /\ d * NS_PER_DAY <= INT64_MAX.
Proof.
  unfold INT64_MAX, NS_PER_DAY, Timestamp_min_day, Timestamp_max_day. lia.
Qed.

Lemma days_above d :
  Timestamp_max_day < d -> INT64_MAX < d * NS_PER_DAY.
Proof. unfold INT64_MAX, NS_PER_DAY, Timestamp_max_day. lia. Qed.

Lemma days_below d :
  d < Timestamp_min_day -> d * NS_PER_DAY < - INT64_MAX.
Proof. unfold INT64_MAX, NS_PER_DAY, Timestamp_min_day. lia. Qed.

Lemma date_of_midnight (d : Z) : date_of (d * NS_PER_DAY) = d.
Proof. unfold date_of. apply Z.div_mul. pose proof NS_PER_DAY_gt_1. lia. Qed.

Lemma date_of_before_midnight (d : Z) : date_of (d * NS_PER_DAY - 1) = d - 1.
Proof.
  unfold date_of. pose proof NS_PER_DAY_gt_1 as H.
  symmetry. apply (Z.div_unique _ _ _ (NS_PER_DAY - 1)); lia.
Qed.

Lemma ceil_truediv (a b : Z) :
  b <> 0 -> ceil (inject_Z a / inject_Z b)%Q = ceil_div a b.
Proof.
  intros Hb. unfold ceil, ceil_div, Qceiling, Qfloor, Qdiv, Qinv, inject_Z.
  destruct b as [|p|p]; [congruence| |]; simpl.
  - rewrite Z.mul_1_r. reflexivity.
  - f_equal. rewrite <- (Z.div_opp_opp (- a) (Z.neg p)) by lia.
    f_equal; lia.
Qed.

Lemma ceil_div_qr (a b q r : Z) :
  0 < b -> a = q * b + r -> 0 <= r < b ->
  ceil_div a b = if r =? 0 then q else q + 1.
Proof.
  intros Hb Ha Hr. unfold ceil_div.
  destruct (r =? 0) eqn:R.
  - apply Z.eqb_eq in R. subst r.
    replace (- a) with (- q * b) by lia. rewrite Z.div_mul by lia. lia.
  - apply Z.eqb_neq in R.
    rewrite <- (Z.div_unique (- a) b (- q - 1) (b - r)); lia.
Qed.

Lemma ceil_div_days a b :
  ceil_div (a * NS_PER_DAY) (b * NS_PER_DAY) = ceil_div a b.
Proof.
  unfold ceil_div. pose proof NS_PER_DAY_gt_1.
  replace (- (a * NS_PER_DAY)) with (- a * NS_PER_DAY) by ring.
  destruct (Z.eq_dec b 0) as [->|Hb].
  - rewrite Z.mul_0_l, !Z.div_0_r. reflexivity.
  - rewrite Z.div_mul_cancel_r by lia. reflexivity.
Qed.

(* ===================================================================== *)
(** ** The loop ends *)
(* ===================================================================== *)

Lemma loop_body_appends dt_end_date limit v out :
  List.length (start_dates (fst (snd (loop_body dt_end_date limit (v, out)))))
  = S (List.length (start_dates v)).
Proof.
  unfold loop_body, bind, assign, get_locals, Timestamp_add, Timestamp_diff, ret, raise.
  cbn [fst snd start_dates end_dates new_start_date new_end_date].
  assert (E : List.length (start_dates v ++ [new_start_date v])
              = S (List.length (start_dates v)))
    by (rewrite length_app; simpl; lia).
  destruct (in_range (new_start_date v + limit)); [|exact E].
  cbn [fst snd start_dates end_dates new_start_date new_end_date].
  destruct (new_end_date v <? dt_end_date);
    destruct (in_range (dt_end_date - new_end_date v));
    cbn [fst snd start_dates end_dates new_start_date new_end_date];
    try exact E;
    try destruct (dt_end_date - new_end_date v >? limit);
    cbn [fst snd start_dates end_dates new_start_date new_end_date];
    repeat match goal with
           | |- context [in_range ?x] => destruct (in_range x)
           end; exact E.
Qed.

(** The rounds granted to the loop suffice: it is left by an exception or
    with its guard false. *)
Lemma while_exit splits dt_end_date limit v out :
  match split_loop splits dt_end_date limit (v, out) with
  | (Returned _, (v', _)) => guard splits v' = false
  | (Raised _, _) => True
  end.
Proof.
  unfold split_loop, bind, get_locals. cbn [fst snd].
  remember (Z.to_nat (splits - Z.of_nat (List.length (start_dates v)))) as n eqn:Hn.
  assert (Hle : (Z.to_nat (splits - Z.of_nat (List.length (start_dates v))) <= n)%nat)
    by lia.
  clear Hn. revert v out Hle.
  induction n as [|n IH]; intros v out Hle; cbn [while_].
  - unfold ret, guard. apply Z.ltb_ge. lia.
  - unfold bind at 1, get_locals. cbn [fst snd].
    destruct (guard splits v) eqn:G; [|exact G].
    unfold bind.
    pose proof (loop_body_appends dt_end_date limit v out) as A.
    destruct (loop_body dt_end_date limit (v, out)) as [[e|[]] [v' o']];
      cbn [fst snd] in A; [exact I|].
    apply IH. rewrite A. lia.
Qed.

(* ===================================================================== *)
(** ** Steps of the function *)
(* ===================================================================== *)

Lemma bind_ret {S A B} (a : A) (k : A -> SE S B) : bind (ret a) k = k a.
Proof. reflexivity. Qed.

Lemma Timedelta_days_ok {S} n :
  Timestamp_min_day <= n <= Timestamp_max_day ->
  @Timedelta_days S n = ret (n * NS_PER_DAY).
Proof.
  intros H. unfold Timedelta_days.
  rewrite (proj2 (in_range_days n) H). reflexivity.
Qed.

Lemma Timedelta_days_overflow {S} n :
  n < Timestamp_min_day \/ Timestamp_max_day < n ->
  @Timedelta_days S n = raise OverflowError.
Proof.
  intros H. unfold Timedelta_days. rewrite in_range_false; [reflexivity|].
  destruct H as [H|H]; [left; apply days_below | right; apply days_above]; exact H.
Qed.

Lemma to_datetime_reads {S} f str d :
  reads f str d -> @to_datetime S str f = ret (d * NS_PER_DAY).
Proof.
  intros [Hp Hr]. unfold to_datetime.
  rewrite Hp, (proj2 (in_range_days d) Hr). reflexivity.
Qed.

Lemma Timestamp_add_ok {S} t d :
  - INT64_MAX <= t + d <= INT64_MAX -> @Timestamp_add S t d = ret (t + d).
Proof. intros H. unfold Timestamp_add. rewrite in_range_true by exact H. reflexivity. Qed.

Lemma Timestamp_sub_ok {S} t d :
  - INT64_MAX <= t - d <= INT64_MAX -> @Timestamp_sub S t d = ret (t - d).
Proof. intros H. unfold Timestamp_sub. rewrite in_range_true by exact H. reflexivity. Qed.

Lemma Timestamp_diff_ok {S} a b :
  - INT64_MAX <= a - b <= INT64_MAX -> @Timestamp_diff S a b = ret (a - b).
Proof. intros H. unfold Timestamp_diff. rewrite in_range_true by exact H. reflexivity. Qed.

(* ===================================================================== *)
(** ** Closed form of the loop *)
(* ===================================================================== *)

Lemma starts_upto_S t0 L n :
  starts_upto t0 L (S n) = starts_upto t0 L n ++ [t0 + Z.of_nat n * L].
Proof. unfold starts_upto. rewrite seq_S, map_app. reflexivity. Qed.

Lemma ends_upto_S t0 L n :
  ends_upto t0 L (S n) = ends_upto t0 L n ++ [t0 + (Z.of_nat n + 1) * L - 1].
Proof. unfold ends_upto. rewrite seq_S, map_app. reflexivity. Qed.

Lemma length_starts_upto t0 L n : List.length (starts_upto t0 L n) = n.
Proof. unfold starts_upto. rewrite length_map, length_seq. reflexivity. Qed.

Lemma length_ends_upto t0 L n : List.length (ends_upto t0 L n) = n.
Proof. unfold ends_upto. rewrite length_map, length_seq. reflexivity. Qed.

Section Loop.

(** First timestamp, last timestamp and limit of a call, with the quotient
    and the remainder of the span by the limit; the two timestamps and
    their difference are in range. *)
Variables t0 t1 L k r : Z.
Hypothesis L_pos : 0 < L.
Hypothesis span : t1 - t0 = k * L + r.
Hypothesis r_bound : 0 <= r < L.
Hypothesis t0_min : - INT64_MAX <= t0.
Hypothesis t1_max : t1 <= INT64_MAX.
Hypothesis span_max : t1 - t0 <= INT64_MAX.

(** While a further full chunk fits, a round takes the first branch. *)
Lemma loop_body_regular n out :
  (1 <= n)%nat -> Z.of_nat n + 1 <= k ->
  loop_body t1 L (regular t0 L n, out) = (Returned tt, (regular t0 L (S n), out)).
Proof.
  intros H1 Hn.
  assert (A1 : in_range (t0 + Z.of_nat n * L + L) = true)
    by (apply in_range_true; nia).
  assert (A2 : (t0 + Z.of_nat n * L - 1 <? t1) = true)
    by (apply Z.ltb_lt; nia).
  assert (A3 : in_range (t1 - (t0 + Z.of_nat n * L - 1)) = true)
    by (apply in_range_true; nia).
  assert (A4 : (t1 - (t0 + Z.of_nat n * L - 1) >? L) = true)
    by (apply Z.gtb_lt; nia).
  assert (A5 : in_range (t0 + Z.of_nat n * L - 1 + L) = true)
    by (apply in_range_true; nia).
  run_body. unfold Timestamp_add, Timestamp_diff, ret, raise.
  cbn [fst snd start_dates end_dates new_start_date new_end_date].
  rewrite A1. cbn [fst snd start_dates end_dates new_start_date new_end_date].
  rewrite A2, A3. cbn [fst snd start_dates end_dates new_start_date new_end_date].
  rewrite A4, A5. cbn [fst snd start_dates end_dates new_start_date new_end_date].
  unfold regular. rewrite starts_upto_S, ends_upto_S.
  rewrite Nat2Z.inj_succ.
  f_equal. f_equal. f_equal; [do 2 f_equal| |]; lia.
Qed.

(** After the last full chunk, when the limit does not divide the span, a
    round takes the second branch, if the start date it computes first is
    in range. *)
Lemma loop_body_closing n out :
  (1 <= n)%nat -> Z.of_nat n = k -> 0 < r ->
  t0 + (k + 1) * L <= INT64_MAX ->
  loop_body t1 L (regular t0 L n, out) = (Returned tt, (closing t0 t1 L n, out)).
Proof.
  intros H1 Hn Hr Hmax.
  assert (A1 : in_range (t0 + Z.of_nat n * L + L) = true)
    by (apply in_range_true; nia).
  assert (A2 : (t0 + Z.of_nat n * L - 1 <? t1) = true)
    by (apply Z.ltb_lt; nia).
  assert (A3 : in_range (t1 - (t0 + Z.of_nat n * L - 1)) = true)
    by (apply in_range_true; nia).
  assert (A4 : (t1 - (t0 + Z.of_nat n * L - 1) >? L) = false)
    by (rewrite Z.gtb_ltb; apply Z.ltb_ge; nia).
  assert (A5 : in_range (t0 + Z.of_nat n * L - 1 + (t1 - (t0 + Z.of_nat n * L - 1))) = true)
    by (apply in_range_true; nia).
  run_body. unfold Timestamp_add, Timestamp_diff, ret, raise.
  cbn [fst snd start_dates end_dates new_start_date new_end_date].
  rewrite A1. cbn [fst snd start_dates end_dates new_start_date new_end_date].
  rewrite A2, A3. cbn [fst snd start_dates end_dates new_start_date new_end_date].
  rewrite A4. cbn [fst snd start_dates end_dates new_start_date new_end_date].
  rewrite ?A3. cbn [fst snd start_dates end_dates new_start_date new_end_date].
  rewrite A5. cbn [fst snd start_dates end_dates new_start_date new_end_date].
  unfold closing. rewrite starts_upto_S.
  rewrite Nat2Z.inj_succ.
  f_equal. f_equal. f_equal; [do 2 f_equal| ]; lia.
Qed.

(** When that start date is out of range, line 160 raises: the start date
    of the last chunk is in [start_dates], its end date is missing. *)
Lemma loop_body_broken n out :
  Z.of_nat n = k -> INT64_MAX < t0 + (k + 1) * L ->
  loop_body t1 L (regular t0 L n, out)
  = (Raised OutOfBoundsDatetime, (broken t0 L n, out)).
Proof.
  intros Hn Hmax.
  assert (A1 : in_range (t0 + Z.of_nat n * L + L) = false)
    by (apply in_range_false; right; nia).
  run_body. unfold Timestamp_add, Timestamp_diff, ret, raise.
  cbn [fst snd start_dates end_dates new_start_date new_end_date].
  rewrite A1. unfold broken. rewrite starts_upto_S. reflexivity.
Qed.

Lemma while_regular splits :
  splits = (if r =? 0 then k else k + 1) ->
  forall m n out,
    (1 <= n)%nat -> Z.of_nat n <= k -> Z.of_nat (n + m) = splits ->
    while_ m (guard splits) (loop_body t1 L) (regular t0 L n, out)
    = (fst (loop_end t0 t1 L k r), (snd (loop_end t0 t1 L k r), out)).
Proof.
  intros Hs. induction m as [|m IH]; intros n out H1 Hn Hm; cbn [while_].
  - unfold loop_end. destruct (r =? 0).
    + cbn [fst snd]. unfold ret. do 3 f_equal. lia.
    + lia.
  - assert (G : guard splits (regular t0 L n) = true).
    { unfold guard; cbn [start_dates regular]. rewrite length_starts_upto.
      apply Z.ltb_lt. lia. }
    unfold bind at 1, get_locals. cbn [fst snd]. rewrite G. unfold bind.
    destruct (Z_le_gt_dec (Z.of_nat n + 1) k) as [Hk|Hk].
    + rewrite loop_body_regular by assumption. apply IH; lia.
    + assert (Z.of_nat n = k /\ m = 0%nat /\ (r =? 0) = false) as (Hk' & -> & R).
      { destruct (r =? 0); lia. }
      assert (0 < r) by (apply Z.eqb_neq in R; lia).
      unfold loop_end. rewrite R.
      replace (Z.to_nat k) with n by lia.
      destruct (in_range (t0 + (k + 1) * L)) eqn:E.
      * rewrite loop_body_closing; try assumption; [reflexivity|].
        unfold in_range in E. apply andb_true_iff in E. destruct E as [_ E].
        apply Z.leb_le in E. exact E.
      * rewrite loop_body_broken; [reflexivity | assumption |].
        unfold in_range in E. apply andb_false_iff in E.
        destruct E as [E|E]; apply Z.leb_gt in E; [nia | exact E].
Qed.

Lemma split_loop_end out :
  1 <= k ->
  split_loop (ceil_div (t1 - t0) L) t1 L (regular t0 L 1, out)
  = (fst (loop_end t0 t1 L k r), (snd (loop_end t0 t1 L k r), out)).
Proof.
  intros Hk. unfold split_loop, bind, get_locals. cbn [fst snd start_dates regular].
  rewrite length_starts_upto.
  apply while_regular.
  - apply (ceil_div_qr _ _ _ _ L_pos span r_bound).
  - lia.
  - lia.
  - rewrite (ceil_div_qr _ _ _ _ L_pos span r_bound). destruct (r =? 0); lia.
Qed.

End Loop.

(* ===================================================================== *)
(** ** The chunks as calendar days *)
(* ===================================================================== *)

Lemma strftime_starts f s l n :
  map (Timestamp_strftime f) (starts_upto (s * NS_PER_DAY) (l * NS_PER_DAY) n)
  = map (strftime f) (chunk_starts s l n).
Proof.
  unfold starts_upto, chunk_starts, Timestamp_strftime. rewrite !map_map.
  apply map_ext. intros i. f_equal.
  replace (s * NS_PER_DAY + Z.of_nat i * (l * NS_PER_DAY))
    with ((s + Z.of_nat i * l) * NS_PER_DAY) by ring.
  apply date_of_midnight.
Qed.

Lemma strftime_ends f s l n :
  map (Timestamp_strftime f) (ends_upto (s * NS_PER_DAY) (l * NS_PER_DAY) n)
  = map (strftime f) (chunk_ends s l n).
Proof.
  unfold ends_upto, chunk_ends, Timestamp_strftime. rewrite !map_map.
  apply map_ext. intros i. f_equal.
  replace (s * NS_PER_DAY + (Z.of_nat i + 1) * (l * NS_PER_DAY) - 1)
    with ((s + (Z.of_nat i + 1) * l) * NS_PER_DAY - 1) by ring.
  apply date_of_before_midnight.
Qed.

Lemma nth_chunk_starts s l n i :
  (i < n)%nat -> nth i (chunk_starts s l n) 0 = s + Z.of_nat i * l.
Proof.
  intros Hi. unfold chunk_starts.
  set (g := fun i : nat => s + Z.of_nat i * l).
  rewrite (nth_indep _ 0 (g 0%nat))
    by (rewrite length_map, length_seq; exact Hi).
  rewrite map_nth, seq_nth by exact Hi. reflexivity.
Qed.

Lemma nth_chunk_ends s l n i :
  (i < n)%nat -> nth i (chunk_ends s l n) 0 = s + (Z.of_nat i + 1) * l - 1.
Proof.
  intros Hi. unfold chunk_ends.
  set (g := fun i : nat => s + (Z.of_nat i + 1) * l - 1).
  rewrite (nth_indep _ 0 (g 0%nat))
    by (rewrite length_map, length_seq; exact Hi).
  rewrite map_nth, seq_nth by exact Hi. reflexivity.
Qed.

Lemma length_chunk_starts s l n : List.length (chunk_starts s l n) = n.
Proof. unfold chunk_starts. rewrite length_map, length_seq. reflexivity. Qed.

Lemma length_chunk_ends s l n : List.length (chunk_ends s l n) = n.
Proof. unfold chunk_ends. rewrite length_map, length_seq. reflexivity. Qed.

Section SplitDays.

Variables s e l : Z.
Hypothesis l_pos : 0 < l.
Hypothesis span_ge : l <= e - s.

Lemma full_chunks :
  1 <= (e - s) / l /\ Z.of_nat (full_chunk_count s e l) = (e - s) / l.
Proof.
  assert (1 <= (e - s) / l) by (apply Z.div_le_lower_bound; lia).
  unfold full_chunk_count. lia.
Qed.

Lemma span_split :
  e - s = Z.of_nat (full_chunk_count s e l) * l + (e - s) mod l
  /\ 0 <= (e - s) mod l < l.
Proof.
  destruct full_chunks as [_ ->]. split.
  - pose proof (Z.div_mod (e - s) l ltac:(lia)). lia.
  - apply Z.mod_pos_bound. exact l_pos.
Qed.

Lemma split_days_length_starts :
  Z.of_nat (List.length (fst (split_days s e l))) = ceil_div (e - s) l.
Proof.
  destruct span_split as [Hs Hr].
  rewrite (ceil_div_qr _ _ _ _ l_pos Hs Hr).
  unfold split_days; cbv zeta; set (k := full_chunk_count s e l) in *.
  destruct ((e - s) mod l =? 0); cbn [fst]; rewrite length_chunk_starts; lia.
Qed.

Lemma split_days_length_ends :
  List.length (snd (split_days s e l)) = List.length (fst (split_days s e l)).
Proof.
  unfold split_days; cbv zeta; set (k := full_chunk_count s e l) in *.
  destruct ((e - s) mod l =? 0); cbn [fst snd];
    rewrite ?length_app, length_chunk_starts, length_chunk_ends; simpl; lia.
Qed.

Lemma split_days_nth_start i :
  (i < List.length (fst (split_days s e l)))%nat ->
  nth i (fst (split_days s e l)) 0 = s + Z.of_nat i * l.
Proof.
  unfold split_days; cbv zeta; set (k := full_chunk_count s e l) in *.
  destruct ((e - s) mod l =? 0); cbn [fst]; rewrite length_chunk_starts;
    intros Hi; apply nth_chunk_starts; exact Hi.
Qed.

(** Every chunk but the last ends one day before the next multiple of
    the limit. *)
Lemma split_days_nth_end i :
  (S i < List.length (fst (split_days s e l)))%nat ->
  nth i (snd (split_days s e l)) 0 = s + (Z.of_nat i + 1) * l - 1.
Proof.
  unfold split_days; cbv zeta; set (k := full_chunk_count s e l) in *.
  destruct ((e - s) mod l =? 0); cbn [fst snd]; rewrite length_chunk_starts;
    intros Hi.
  - apply nth_chunk_ends. lia.
  - rewrite app_nth1 by (rewrite length_chunk_ends; lia).
    apply nth_chunk_ends. lia.
Qed.

(** The last chunk ends at [e] when the limit does not divide the span,
    and one day before [e] when it does. *)
Lemma split_days_last_end :
  nth (List.length (fst (split_days s e l)) - 1) (snd (split_days s e l)) 0
  = if (e - s) mod l =? 0 then e - 1 else e.
Proof.
  destruct span_split as [Hs Hr]. destruct full_chunks as [Hk _].
  unfold split_days; cbv zeta; set (k := full_chunk_count s e l) in *.
  destruct ((e - s) mod l =? 0) eqn:R; cbn [fst snd]; rewrite length_chunk_starts.
  - apply Z.eqb_eq in R. rewrite nth_chunk_ends by lia.
    rewrite Nat2Z.inj_sub by lia. change (Z.of_nat 1) with 1. nia.
  - rewrite app_nth2 by (rewrite length_chunk_ends; lia).
    rewrite length_chunk_ends.
    replace (S k - 1 - k)%nat with 0%nat by lia. reflexivity.
Qed.

End SplitDays.

Lemma split_days_first_end s e l :
  0 < l -> l <= e - s -> nth 0 (snd (split_days s e l)) 0 = s + l - 1.
Proof.
  intros Hl Hd. destruct (full_chunks s e l Hl Hd) as [Hk Hk'].
  unfold split_days; cbv zeta.
  destruct ((e - s) mod l =? 0); cbn [snd];
    rewrite ?app_nth1 by (rewrite length_chunk_ends; lia);
    rewrite nth_chunk_ends by lia; change (Z.of_nat 0) with 0; lia.
Qed.

(* ===================================================================== *)
(** ** Running the function *)
(* ===================================================================== *)

Lemma regular_1 t0 L :
  {| start_dates := [t0]; end_dates := [t0 + L - 1];
     new_start_date := t0 + L; new_end_date := t0 + L - 1 |}
  = regular t0 L 1.
Proof.
  unfold regular, starts_upto, ends_upto; cbn [seq map].
  change (Z.of_nat 0) with 0. change (Z.of_nat 1) with 1.
  f_equal; try (f_equal; lia); lia.
Qed.

(** A loop whose guard is false from the start does nothing. *)
Lemma split_loop_idle splits t1 L v out :
  splits <= Z.of_nat (List.length (start_dates v)) ->
  split_loop splits t1 L (v, out) = (Returned tt, (v, out)).
Proof.
  intros H. unfold split_loop, bind, get_locals. cbn [fst snd].
  replace (Z.to_nat (splits - Z.of_nat (List.length (start_dates v)))) with 0%nat by lia.
  reflexivity.
Qed.

Lemma split_dates_by_limit_none f start_date end_date limit s e out :
  reads f start_date s -> reads f end_date e ->
  Timestamp_min_day <= limit <= Timestamp_max_day ->
  - Timestamp_max_day <= e - s <= Timestamp_max_day ->
  e - s < limit ->
  split_dates_by_limit start_date end_date limit f out = (Returned None, out).
Proof.
  intros Hs He Hl Hd Hlt. unfold split_dates_by_limit.
  rewrite (Timedelta_days_ok _ Hl), bind_ret.
  rewrite (to_datetime_reads _ _ _ Hs), bind_ret.
  rewrite (to_datetime_reads _ _ _ He), bind_ret.
  rewrite Timestamp_diff_ok
    by (unfold INT64_MAX, NS_PER_DAY, Timestamp_max_day in *; lia).
  rewrite bind_ret.
  assert (G : (limit * NS_PER_DAY >? e * NS_PER_DAY - s * NS_PER_DAY) = true).
  { apply Z.gtb_lt. pose proof NS_PER_DAY_gt_1. nia. }
  rewrite G. reflexivity.
Qed.

(** Lines 140-153 for a limit that the span reaches: the locals the loop
    starts from and the number of chunks. *)
Lemma split_dates_by_limit_loop f start_date end_date limit s e out :
  reads f start_date s -> reads f end_date e ->
  Timestamp_min_day <= limit <= Timestamp_max_day ->
  - Timestamp_max_day <= e - s <= Timestamp_max_day ->
  limit <= e - s -> limit <> 0 ->
  Timestamp_min_day <= s + limit <= Timestamp_max_day ->
  split_dates_by_limit start_date end_date limit f out
  = (r <- with_locals (regular (s * NS_PER_DAY) (limit * NS_PER_DAY) 1)
            (try_except
               (split_loop (ceil_div (e - s) limit) (e * NS_PER_DAY)
                  (limit * NS_PER_DAY))
               (fun _ => print critical)) ;;
     ret (Some [("start_dates"%string,
                 map (Timestamp_strftime f) (start_dates (snd r)));
                ("end_dates"%string,
                 map (Timestamp_strftime f) (end_dates (snd r)))])) out.
Proof.
  intros Hs He Hl Hd Hle H0 Hsl. unfold split_dates_by_limit.
  rewrite (Timedelta_days_ok _ Hl), bind_ret.
  rewrite (to_datetime_reads _ _ _ Hs), bind_ret.
  rewrite (to_datetime_reads _ _ _ He), bind_ret.
  rewrite Timestamp_diff_ok
    by (unfold INT64_MAX, NS_PER_DAY, Timestamp_max_day in *; lia).
  rewrite bind_ret.
  pose proof NS_PER_DAY_gt_1 as HN.
  assert (G : (limit * NS_PER_DAY >? e * NS_PER_DAY - s * NS_PER_DAY) = false).
  { rewrite Z.gtb_ltb. apply Z.ltb_ge. nia. }
  rewrite G.
  pose proof (days_bounds _ Hsl) as [B1 B2].
  rewrite !Timestamp_add_ok, !bind_ret by nia.
  rewrite Timestamp_sub_ok, bind_ret by (unfold Timedelta_value; nia).
  unfold truediv.
  assert (Z0 : (limit * NS_PER_DAY =? 0) = false) by (apply Z.eqb_neq; nia).
  rewrite Z0, bind_ret, ceil_truediv by (apply Z.eqb_neq; exact Z0).
  unfold Timedelta_value. rewrite regular_1.
  replace (e * NS_PER_DAY - s * NS_PER_DAY) with ((e - s) * NS_PER_DAY) by ring.
  rewrite ceil_div_days. reflexivity.
Qed.

Lemma eqb_days r : (r * NS_PER_DAY =? 0) = (r =? 0).
Proof.
  pose proof NS_PER_DAY_gt_1.
  destruct (r =? 0) eqn:R.
  - apply Z.eqb_eq in R. apply Z.eqb_eq. nia.
  - apply Z.eqb_neq in R. apply Z.eqb_neq. nia.
Qed.

Section Split.

(** A call on the days [s] and [e] with a limit of [l] days that the span
    reaches, all within the range of pandas. *)
Variables (f : Format) (start_date end_date : string) (s e l : Z).
Hypothesis start_reads : reads f start_date s.
Hypothesis end_reads : reads f end_date e.
Hypothesis l_pos : 0 < l.
Hypothesis span_ge : l <= e - s.
Hypothesis span_max : e - s <= Timestamp_max_day.

Lemma next_start_cases :
  next_start s e l
  = if (e - s) mod l =? 0 then e
    else s + (Z.of_nat (full_chunk_count s e l) + 1) * l.
Proof.
  destruct (span_split s e l l_pos span_ge) as [Hq Hr].
  unfold next_start. rewrite (ceil_div_qr _ _ _ _ l_pos Hq Hr).
  destruct ((e - s) mod l =? 0) eqn:R; [|reflexivity].
  apply Z.eqb_eq in R. lia.
Qed.

Lemma split_loop_days out :
  split_loop (ceil_div (e - s) l) (e * NS_PER_DAY) (l * NS_PER_DAY)
    (regular (s * NS_PER_DAY) (l * NS_PER_DAY) 1, out)
  = (fst (loop_end (s * NS_PER_DAY) (e * NS_PER_DAY) (l * NS_PER_DAY)
            ((e - s) / l) ((e - s) mod l * NS_PER_DAY)),
     (snd (loop_end (s * NS_PER_DAY) (e * NS_PER_DAY) (l * NS_PER_DAY)
             ((e - s) / l) ((e - s) mod l * NS_PER_DAY)), out)).
Proof.
  pose proof NS_PER_DAY_gt_1 as HN.
  destruct (span_split s e l l_pos span_ge) as [Hq Hr].
  destruct (full_chunks s e l l_pos span_ge) as [Hk Hk'].
  rewrite Hk' in Hq.
  destruct start_reads as [_ Rs]. destruct end_reads as [_ Re].
  pose proof (days_bounds _ Rs) as [Bs _].
  pose proof (days_bounds _ Re) as [_ Be].
  rewrite <- (ceil_div_days (e - s) l).
  replace ((e - s) * NS_PER_DAY) with (e * NS_PER_DAY - s * NS_PER_DAY) by ring.
  apply split_loop_end; try nia.
  unfold INT64_MAX, NS_PER_DAY, Timestamp_max_day in *. lia.
Qed.

(** No date leaves the range: the days of [split_days] are returned and
    nothing is printed. *)
Lemma split_dates_by_limit_days out :
  next_start s e l <= Timestamp_max_day ->
  split_dates_by_limit start_date end_date l f out
  = (Returned (Some (dates_dict f (fst (split_days s e l))
                                  (snd (split_days s e l)))), out).
Proof.
  intros Hn. rewrite next_start_cases in Hn.
  destruct (full_chunks s e l l_pos span_ge) as [Hk Hk'].
  pose proof start_reads as [_ Rs]. pose proof end_reads as [_ Re].
  rewrite (split_dates_by_limit_loop f _ _ _ s e out start_reads end_reads)
    by (unfold Timestamp_min_day, Timestamp_max_day in *; lia).
  unfold bind, with_locals, try_except. rewrite split_loop_days.
  unfold loop_end, split_days, dates_dict. rewrite eqb_days.
  destruct ((e - s) mod l =? 0) eqn:R; cbn [fst snd].
  - unfold ret. cbn [fst snd regular start_dates end_dates].
    rewrite strftime_starts, strftime_ends. reflexivity.
  - replace (s * NS_PER_DAY + ((e - s) / l + 1) * (l * NS_PER_DAY))
      with ((s + ((e - s) / l + 1) * l) * NS_PER_DAY) by ring.
    rewrite (proj2 (in_range_days _))
      by (unfold Timestamp_min_day, Timestamp_max_day in *; nia).
    unfold ret. cbn [fst snd closing start_dates end_dates].
    rewrite strftime_starts, !map_app, strftime_ends. cbn [map].
    unfold Timestamp_strftime at 1. rewrite date_of_midnight. reflexivity.
Qed.

(** The start date after the last chunk leaves the range: line 160 raises
    in the last round, the handler prints its line, and the dictionary
    holds the start date of the last chunk without an end date. *)
Lemma split_dates_by_limit_broken out :
  Timestamp_max_day < next_start s e l ->
  split_dates_by_limit start_date end_date l f out
  = (Returned (Some (dates_dict f
                       (chunk_starts s l (S (full_chunk_count s e l)))
                       (chunk_ends s l (full_chunk_count s e l)))),
     out ++ [critical]).
Proof.
  intros Hn. rewrite next_start_cases in Hn.
  destruct (full_chunks s e l l_pos span_ge) as [Hk Hk'].
  pose proof start_reads as [_ Rs]. pose proof end_reads as [_ Re].
  rewrite (split_dates_by_limit_loop f _ _ _ s e out start_reads end_reads)
    by (unfold Timestamp_min_day, Timestamp_max_day in *; lia).
  unfold bind, with_locals, try_except. rewrite split_loop_days.
  unfold loop_end, dates_dict. rewrite eqb_days.
  destruct ((e - s) mod l =? 0) eqn:R; [lia|].
  replace (s * NS_PER_DAY + ((e - s) / l + 1) * (l * NS_PER_DAY))
    with ((s + ((e - s) / l + 1) * l) * NS_PER_DAY) by ring.
  rewrite in_range_false by (right; apply days_above; lia).
  cbn [fst snd]. unfold print, ret. cbn [fst snd broken start_dates end_dates].
  rewrite strftime_starts, strftime_ends. reflexivity.
Qed.

End Split.

(** A limit of zero days: the division that counts the chunks raises. *)
Lemma split_dates_by_limit_zero f start_date end_date s e out :
  reads f start_date s -> reads f end_date e ->
  0 <= e - s <= Timestamp_max_day ->
  split_dates_by_limit start_date end_date 0 f out = (Raised ZeroDivisionError, out).
Proof.
  intros Hs He Hd.
  assert (Hl : Timestamp_min_day <= 0 <= Timestamp_max_day)
    by (unfold Timestamp_min_day, Timestamp_max_day; lia).
  unfold split_dates_by_limit.
  rewrite (Timedelta_days_ok _ Hl), bind_ret.
  rewrite (to_datetime_reads _ _ _ Hs), bind_ret.
  rewrite (to_datetime_reads _ _ _ He), bind_ret.
  rewrite Timestamp_diff_ok
    by (unfold INT64_MAX, NS_PER_DAY, Timestamp_max_day in *; lia).
  rewrite bind_ret.
  pose proof NS_PER_DAY_gt_1 as HN.
  assert (G : (0 * NS_PER_DAY >? e * NS_PER_DAY - s * NS_PER_DAY) = false).
  { rewrite Z.gtb_ltb. apply Z.ltb_ge. nia. }
  rewrite G.
  destruct Hs as [_ Rs]. pose proof (days_bounds _ Rs) as [B1 B2].
  rewrite !Timestamp_add_ok, !bind_ret by lia.
  rewrite Timestamp_sub_ok, bind_ret by (unfold Timedelta_value; lia).
  reflexivity.
Qed.

(** A negative limit: the loop has no round to run. *)
Lemma split_dates_by_limit_negative f start_date end_date limit s e out :
  reads f start_date s -> reads f end_date e ->
  - Timestamp_max_day <= e - s <= Timestamp_max_day ->
  limit < 0 -> limit <= e - s ->
  Timestamp_min_day <= limit -> Timestamp_min_day <= s + limit ->
  split_dates_by_limit start_date end_date limit f out
  = (Returned (Some (dates_dict f [s] [s + limit - 1])), out).
Proof.
  intros Hs He Hd Hl Hle Hlmin Hsl. pose proof Hs as [_ Rs].
  rewrite (split_dates_by_limit_loop f _ _ _ s e out Hs He)
    by (unfold Timestamp_min_day, Timestamp_max_day in *; lia).
  unfold bind, with_locals, try_except.
  rewrite split_loop_idle.
  - unfold ret, dates_dict. cbn [fst snd regular start_dates end_dates].
    rewrite strftime_starts, strftime_ends.
    unfold chunk_starts, chunk_ends. cbn [seq map].
    change (Z.of_nat 0) with 0.
    replace (s + 0 * limit) with s by lia.
    replace (s + (0 + 1) * limit - 1) with (s + limit - 1) by lia.
    reflexivity.
  - cbn [regular start_dates]. rewrite length_starts_upto.
    unfold ceil_div.
    assert (-1 <= (e - s) / - limit) by (apply Z.div_le_lower_bound; lia).
    rewrite <- (Z.opp_involutive limit), Z.div_opp_opp by lia.
    change (Z.of_nat 1) with 1. lia.
Qed.

(* ===================================================================== *)
(** ** Calls that raise before the loop *)
(* ===================================================================== *)

Lemma in_range_days_false d :
  ~ (Timestamp_min_day <= d <= Timestamp_max_day) ->
  in_range (d * NS_PER_DAY) = false.
Proof.
  intros H. destruct (in_range (d * NS_PER_DAY)) eqn:E; [|reflexivity].
  apply in_range_days in E. contradiction.
Qed.

Lemma reads_unique f str d d' : reads f str d -> reads f str d' -> d = d'.
Proof. intros [H _] [H' _]. congruence. Qed.

(** Line 132 runs first: a limit that a [pd.Timedelta] cannot hold raises
    whatever the dates are. *)
Lemma split_dates_by_limit_overflow f start_date end_date limit out :
  limit < Timestamp_min_day \/ Timestamp_max_day < limit ->
  split_dates_by_limit start_date end_date limit f out = (Raised OverflowError, out).
Proof.
  intros H. unfold split_dates_by_limit.
  rewrite (Timedelta_days_overflow _ H). reflexivity.
Qed.

Lemma split_dates_by_limit_start_unread f start_date end_date limit out :
  Timestamp_min_day <= limit <= Timestamp_max_day ->
  strptime f start_date = None ->
  split_dates_by_limit start_date end_date limit f out = (Raised ValueError, out).
Proof.
  intros Hl H. unfold split_dates_by_limit.
  rewrite (Timedelta_days_ok _ Hl), bind_ret.
  unfold to_datetime at 1. rewrite H. reflexivity.
Qed.

Lemma split_dates_by_limit_start_out_of_range f start_date end_date limit s out :
  Timestamp_min_day <= limit <= Timestamp_max_day ->
  strptime f start_date = Some s ->
  ~ (Timestamp_min_day <= s <= Timestamp_max_day) ->
  split_dates_by_limit start_date end_date limit f out
  = (Raised OutOfBoundsDatetime, out).
Proof.
  intros Hl H Hr. unfold split_dates_by_limit.
  rewrite (Timedelta_days_ok _ Hl), bind_ret.
  unfold to_datetime at 1. rewrite H, (in_range_days_false _ Hr). reflexivity.
Qed.

Lemma split_dates_by_limit_end_unread f start_date end_date limit s out :
  Timestamp_min_day <= limit <= Timestamp_max_day ->
  reads f start_date s ->
  strptime f end_date = None ->
  split_dates_by_limit start_date end_date limit f out = (Raised ValueError, out).
Proof.
  intros Hl Hs H. unfold split_dates_by_limit.
  rewrite (Timedelta_days_ok _ Hl), bind_ret.
  rewrite (to_datetime_reads _ _ _ Hs), bind_ret.
  unfold to_datetime at 1. rewrite H. reflexivity.
Qed.

Lemma split_dates_by_limit_end_out_of_range f start_date end_date limit s e out :
  Timestamp_min_day <= limit <= Timestamp_max_day ->
  reads f start_date s ->
  strptime f end_date = Some e ->
  ~ (Timestamp_min_day <= e <= Timestamp_max_day) ->
  split_dates_by_limit start_date end_date limit f out
  = (Raised OutOfBoundsDatetime, out).
Proof.
  intros Hl Hs H Hr. unfold split_dates_by_limit.
  rewrite (Timedelta_days_ok _ Hl), bind_ret.
  rewrite (to_datetime_reads _ _ _ Hs), bind_ret.
  unfold to_datetime at 1. rewrite H, (in_range_days_false _ Hr). reflexivity.
Qed.

(** Line 137: a span that a [pd.Timedelta] cannot hold. *)
Lemma split_dates_by_limit_span_out_of_range f start_date end_date limit s e out :
  Timestamp_min_day <= limit <= Timestamp_max_day ->
  reads f start_date s -> reads f end_date e ->
  ~ (- Timestamp_max_day <= e - s <= Timestamp_max_day) ->
  split_dates_by_limit start_date end_date limit f out
  = (Raised OutOfBoundsDatetime, out).
Proof.
  intros Hl Hs He Hr. unfold split_dates_by_limit.
  rewrite (Timedelta_days_ok _ Hl), bind_ret.
  rewrite (to_datetime_reads _ _ _ Hs), bind_ret.
  rewrite (to_datetime_reads _ _ _ He), bind_ret.
  unfold Timestamp_diff.
  replace (e * NS_PER_DAY - s * NS_PER_DAY) with ((e - s) * NS_PER_DAY) by ring.
  rewrite in_range_days_false; [reflexivity|].
  unfold Timestamp_min_day, Timestamp_max_day in *. lia.
Qed.

(** Line 144: the end of the first chunk before the first day a
    [pd.Timestamp] holds, for a negative limit. *)
Lemma split_dates_by_limit_first_out_of_range f start_date end_date limit s e out :
  Timestamp_min_day <= limit <= Timestamp_max_day ->
  reads f start_date s -> reads f end_date e ->
  - Timestamp_max_day <= e - s <= Timestamp_max_day ->
  limit <= e - s ->
  ~ (Timestamp_min_day <= s + limit <= Timestamp_max_day) ->
  split_dates_by_limit start_date end_date limit f out
  = (Raised OutOfBoundsDatetime, out).
Proof.
  intros Hl Hs He Hd Hle Hr. unfold split_dates_by_limit.
  rewrite (Timedelta_days_ok _ Hl), bind_ret.
  rewrite (to_datetime_reads _ _ _ Hs), bind_ret.
  rewrite (to_datetime_reads _ _ _ He), bind_ret.
  rewrite Timestamp_diff_ok
    by (unfold INT64_MAX, NS_PER_DAY, Timestamp_max_day in *; lia).
  rewrite bind_ret.
  assert (G : (limit * NS_PER_DAY >? e * NS_PER_DAY - s * NS_PER_DAY) = false).
  { rewrite Z.gtb_ltb. apply Z.ltb_ge. pose proof NS_PER_DAY_gt_1. nia. }
  rewrite G. unfold Timestamp_add at 1.
  replace (s * NS_PER_DAY + limit * NS_PER_DAY) with ((s + limit) * NS_PER_DAY) by ring.
  rewrite (in_range_days_false _ Hr). reflexivity.
Qed.

(** What a call prints, once its result and its output are known for
    every output before it. *)
Lemma prints_nothing {A} (c : Py A) r (P : Prop) :
  (forall out, c out = (r, out)) -> ~ P ->
  forall out,
    fst (c out) = fst (c [])
    /\ snd (c out) = out ++ snd (c [])
    /\ (snd (c []) = [] \/ snd (c []) = [critical])
    /\ (snd (c []) = [critical] <-> P).
Proof.
  intros H HP out. rewrite (H out), (H []). cbn [fst snd].
  rewrite app_nil_r. repeat split; auto.
  - discriminate.
  - contradiction.
Qed.

Lemma prints_critical {A} (c : Py A) r (P : Prop) :
  (forall out, c out = (r, out ++ [critical])) -> P ->
  forall out,
    fst (c out) = fst (c [])
    /\ snd (c out) = out ++ snd (c [])
    /\ (snd (c []) = [] \/ snd (c []) = [critical])
    /\ (snd (c []) = [critical] <-> P).
Proof.
  intros H HP out. rewrite (H out), (H []). cbn [fst snd app].
  repeat split; auto.
Qed.

(* ===================================================================== *)
(** ** The properties of the specification *)
(* ===================================================================== *)

Import Pattern.

(** C1. The claim: the chunks cover the span up to the end date, which is
    the last entry of [end_dates].  On the code: for the span 01/01/17 to
    01/31/17, exactly 30 days, and a limit of 30 the single chunk returned
    ends on 01/30/17: the requested end date is in no chunk. *)
Theorem exact_multiple_drops_end_date :
  split_dates_by_limit "01/01/17" "01/31/17" 30 mdy []
  = (Returned (Some [("start_dates"%string, ["01/01/17"%string]);
                     ("end_dates"%string, ["01/30/17"%string])]), []).
Proof. vm_compute. reflexivity. Qed.

(** C2, as the specification states it, fails on the code: for a limit of
    106752 days, more than a [pd.Timedelta] holds, the call on a span of 14
    days raises on line 132 and does not return [None]. *)
Lemma limit_beyond_timedelta_raises :
  split_dates_by_limit "01/01/17" "01/15/17" 106752 mdy [] = (Raised OverflowError, [])
  /\ strptime mdy "01/01/17" = Some 17167 /\ strptime mdy "01/15/17" = Some 17181
  /\ 17181 - 17167 < 106752
  /\ ~ (exists out, split_dates_by_limit "01/01/17" "01/15/17" 106752 mdy []
                    = (Returned None, out)).
Proof.
  assert (E : split_dates_by_limit "01/01/17" "01/15/17" 106752 mdy []
              = (Raised OverflowError, [])) by (vm_compute; reflexivity).
  split; [exact E|].
  split; [vm_compute; reflexivity|]. split; [vm_compute; reflexivity|].
  split; [lia|].
  intros [out H]. rewrite E in H. discriminate H.
Qed.

(** C2, amended.  For dates that [pd.to_datetime] reads, with start <= end
    and a span of at most 106751 days, and a limit from 1 to 106751 days,
    the function returns [None], printing nothing, exactly when the span
    is less than the limit; otherwise it returns a dictionary with
    [start_dates] and [end_dates]. *)
Theorem none_iff_span_below_limit f start_date end_date limit s e out :
  reads f start_date s -> reads f end_date e ->
  s <= e -> e - s <= Timestamp_max_day ->
  0 < limit -> limit <= Timestamp_max_day ->
  (split_dates_by_limit start_date end_date limit f out = (Returned None, out)
   <-> e - s < limit)
  /\ (limit <= e - s ->
      exists starts ends printed,
        split_dates_by_limit start_date end_date limit f out
        = (Returned (Some [("start_dates"%string, starts);
                           ("end_dates"%string, ends)]), out ++ printed)).
Proof.
  intros Hs He Hse Hmax Hl Hlmax.
  assert (Some_ : limit <= e - s ->
            exists starts ends printed,
              split_dates_by_limit start_date end_date limit f out
              = (Returned (Some [("start_dates"%string, starts);
                                 ("end_dates"%string, ends)]), out ++ printed)).
  { intros Hd.
    destruct (Z_le_gt_dec (next_start s e limit) Timestamp_max_day) as [Hn|Hn].
    - eexists _, _, []. rewrite app_nil_r.
      rewrite (split_dates_by_limit_days f _ _ s e limit Hs He Hl Hd Hmax out Hn).
      unfold dates_dict. reflexivity.
    - eexists _, _, [critical].
      rewrite (split_dates_by_limit_broken f _ _ s e limit Hs He Hl Hd Hmax out);
        [unfold dates_dict; reflexivity | lia]. }
  split; [split|exact Some_].
  - intros H. destruct (Z_lt_le_dec (e - s) limit) as [|Hd]; [assumption|].
    destruct (Some_ Hd) as (st & en & w & E). rewrite E in H. discriminate H.
  - intros Hd. apply (split_dates_by_limit_none f _ _ limit s e); try assumption;
      unfold Timestamp_min_day, Timestamp_max_day in *; lia.
Qed.

Lemma none_iff_span_below_limit_witness :
  (split_dates_by_limit "01/01/17" "01/15/17" 90 mdy [] = (Returned None, [])
   <-> 17181 - 17167 < 90)
  /\ (exists starts ends printed,
        split_dates_by_limit "01/01/17" "12/31/18" 90 mdy []
        = (Returned (Some [("start_dates"%string, starts);
                           ("end_dates"%string, ends)]), [] ++ printed)).
Proof.
  split.
  - refine (proj1 (none_iff_span_below_limit mdy "01/01/17" "01/15/17" 90
                     17167 17181 [] _ _ _ _ _ _)).
    + split; [vm_compute; reflexivity | unfold Timestamp_min_day, Timestamp_max_day; lia].
    + split; [vm_compute; reflexivity | unfold Timestamp_min_day, Timestamp_max_day; lia].
    + lia.
    + unfold Timestamp_max_day. lia.
    + lia.
    + unfold Timestamp_max_day. lia.
  - refine (proj2 (none_iff_span_below_limit mdy "01/01/17" "12/31/18" 90
                     17167 17896 [] _ _ _ _ _ _) _).
    + split; [vm_compute; reflexivity | unfold Timestamp_min_day, Timestamp_max_day; lia].
    + split; [vm_compute; reflexivity | unfold Timestamp_min_day, Timestamp_max_day; lia].
    + lia.
    + unfold Timestamp_max_day. lia.
    + lia.
    + unfold Timestamp_max_day. lia.
    + lia.
Defined.

(** C3, as the specification states it, fails on the code: from 2262-03-01
    to 2262-04-11, the last day of [pd.Timestamp], under a limit of 30 days
    the span is 41 days and ceil(41 / 30) = 2, but [end_dates] has one
    entry: line 160 raises in the last round before the end date is
    appended, and the handler prints its line. *)
Lemma overflow_loses_an_end_date :
  split_dates_by_limit "22620301" "22620411" 30 Ymd []
  = (Returned (Some [("start_dates"%string, ["22620301"; "22620331"]%string);
                     ("end_dates"%string, ["22620330"%string])]), [critical])
  /\ strptime Ymd "22620301" = Some 106710 /\ strptime Ymd "22620411" = Some 106751
  /\ ~ (exists starts ends out,
          split_dates_by_limit "22620301" "22620411" 30 Ymd []
          = (Returned (Some [("start_dates"%string, starts);
                             ("end_dates"%string, ends)]), out)
          /\ Z.of_nat (List.length ends)
             = ceil (inject_Z (106751 - 106710) / inject_Z 30)%Q).
Proof.
  assert (E : split_dates_by_limit "22620301" "22620411" 30 Ymd []
              = (Returned (Some [("start_dates"%string, ["22620301"; "22620331"]%string);
                                 ("end_dates"%string, ["22620330"%string])]), [critical]))
    by (vm_compute; reflexivity).
  split; [exact E|].
  split; [vm_compute; reflexivity|]. split; [vm_compute; reflexivity|].
  intros (st & en & out & H & Hn). rewrite E in H.
  injection H as _ <- _. vm_compute in Hn. discriminate Hn.
Qed.

(** C3, amended.  For dates that [pd.to_datetime] reads, with start <= end,
    and a limit with 0 < limit <= end - start <= 106751 days, let
    n = ceil((end - start) / limit).  When start + n * limit is on or before
    2262-04-11, [start_dates] and [end_dates] each have n entries and
    nothing is printed.  When it is later, [start_dates] has n entries,
    [end_dates] has n - 1, and the line of the handler is printed. *)
Theorem lengths_are_ceil f start_date end_date limit s e out :
  reads f start_date s -> reads f end_date e ->
  s <= e -> 0 < limit -> limit <= e - s -> e - s <= Timestamp_max_day ->
  (next_start s e limit <= Timestamp_max_day ->
   exists starts ends,
     split_dates_by_limit start_date end_date limit f out
     = (Returned (Some [("start_dates"%string, starts);
                        ("end_dates"%string, ends)]), out)
     /\ Z.of_nat (List.length starts) = ceil (inject_Z (e - s) / inject_Z limit)%Q
     /\ Z.of_nat (List.length ends) = ceil (inject_Z (e - s) / inject_Z limit)%Q)
  /\ (Timestamp_max_day < next_start s e limit ->
      exists starts ends,
        split_dates_by_limit start_date end_date limit f out
        = (Returned (Some [("start_dates"%string, starts);
                           ("end_dates"%string, ends)]), out ++ [critical])
        /\ Z.of_nat (List.length starts) = ceil (inject_Z (e - s) / inject_Z limit)%Q
        /\ Z.of_nat (List.length ends)
           = ceil (inject_Z (e - s) / inject_Z limit)%Q - 1).
Proof.
  intros Hs He Hse Hl Hd Hmax. split; intros Hn.
  - eexists _, _. split.
    + rewrite (split_dates_by_limit_days f _ _ s e limit Hs He Hl Hd Hmax out Hn).
      unfold dates_dict. reflexivity.
    + rewrite !length_map, ceil_truediv by lia.
      rewrite (split_days_length_ends s e limit).
      split; apply split_days_length_starts; assumption.
  - eexists _, _. split.
    + rewrite (split_dates_by_limit_broken f _ _ s e limit Hs He Hl Hd Hmax out Hn).
      unfold dates_dict. reflexivity.
    + rewrite !length_map, ceil_truediv by lia.
      rewrite length_chunk_starts, length_chunk_ends.
      destruct (span_split s e limit Hl Hd) as [Hq Hr].
      rewrite (ceil_div_qr _ _ _ _ Hl Hq Hr).
      rewrite (next_start_cases s e limit Hl Hd) in Hn.
      destruct (proj2 He) as [_ Hemax].
      destruct ((e - s) mod limit =? 0); lia.
Qed.

Lemma lengths_are_ceil_witness :
  (exists starts ends,
     split_dates_by_limit "01/01/17" "12/31/18" 90 mdy []
     = (Returned (Some [("start_dates"%string, starts);
                        ("end_dates"%string, ends)]), [])
     /\ Z.of_nat (List.length starts) = ceil (inject_Z (17896 - 17167) / inject_Z 90)%Q
     /\ Z.of_nat (List.length ends) = ceil (inject_Z (17896 - 17167) / inject_Z 90)%Q)
  /\ (exists starts ends,
        split_dates_by_limit "22620101" "22620411" 40 Ymd []
        = (Returned (Some [("start_dates"%string, starts);
                           ("end_dates"%string, ends)]), [] ++ [critical])
        /\ Z.of_nat (List.length starts)
           = ceil (inject_Z (106751 - 106651) / inject_Z 40)%Q
        /\ Z.of_nat (List.length ends)
           = ceil (inject_Z (106751 - 106651) / inject_Z 40)%Q - 1).
Proof.
  split.
  - apply (lengths_are_ceil mdy "01/01/17" "12/31/18" 90 17167 17896 []).
    + split; [vm_compute; reflexivity | unfold Timestamp_min_day, Timestamp_max_day; lia].
    + split; [vm_compute; reflexivity | unfold Timestamp_min_day, Timestamp_max_day; lia].
    + lia.
    + lia.
    + lia.
    + unfold Timestamp_max_day. lia.
    + vm_compute. discriminate.
  - apply (lengths_are_ceil Ymd "22620101" "22620411" 40 106651 106751 []).
    + split; [vm_compute; reflexivity | unfold Timestamp_min_day, Timestamp_max_day; lia].
    + split; [vm_compute; reflexivity | unfold Timestamp_min_day, Timestamp_max_day; lia].
    + lia.
    + lia.
    + lia.
    + unfold Timestamp_max_day. lia.
    + vm_compute. reflexivity.
Defined.




(** C5, as the specification states it, fails on the code: from 2262-01-01
    to 2262-04-11 under a limit of 40 days three start dates and two end
    dates are returned: the third chunk has no end, so it is not the
    sub-interval of at most 40 days that the claim promises. *)
Lemma overflow_leaves_a_chunk_open :
  split_dates_by_limit "22620101" "22620411" 40 Ymd []
  = (Returned (Some [("start_dates"%string,
                      ["22620101"; "22620210"; "22620322"]%string);
                     ("end_dates"%string, ["22620209"; "22620321"]%string)]),
     [critical])
  /\ strptime Ymd "22620101" = Some 106651 /\ strptime Ymd "22620411" = Some 106751
  /\ 0 < 40 <= 106751 - 106651
  /\ ~ (exists starts ends out,
          split_dates_by_limit "22620101" "22620411" 40 Ymd []
          = (Returned (Some [("start_dates"%string, starts);
                             ("end_dates"%string, ends)]), out)
          /\ List.length ends = List.length starts).
Proof.
  assert (E : split_dates_by_limit "22620101" "22620411" 40 Ymd []
              = (Returned (Some [("start_dates"%string,
                                  ["22620101"; "22620210"; "22620322"]%string);
                                 ("end_dates"%string,
                                  ["22620209"; "22620321"]%string)]), [critical]))
    by (vm_compute; reflexivity).
  split; [exact E|].
  split; [vm_compute; reflexivity|]. split; [vm_compute; reflexivity|].
  split; [lia|].
  intros (st & en & out & H & Hn). rewrite E in H.
  injection H as <- <-. cbn [List.length] in Hn. discriminate Hn.
Qed.

(** C5, amended.  For dates that [pd.to_datetime] reads and a limit with
    0 < limit <= end - start <= 106751 days, when start +
    ceil((end - start) / limit) * limit is on or before 2262-04-11: every
    start date has its end date, the first chunk runs from start to
    start + limit - 1 day, every chunk has at most limit days
    (end - start + 1), and every chunk but possibly the last has exactly
    limit days. *)
Theorem chunk_lengths f start_date end_date limit s e out :
  reads f start_date s -> reads f end_date e ->
  0 < limit -> limit <= e - s -> e - s <= Timestamp_max_day ->
  next_start s e limit <= Timestamp_max_day ->
  exists sd ed,
    split_dates_by_limit start_date end_date limit f out
    = (Returned (Some (dates_dict f sd ed)), out)
    /\ List.length ed = List.length sd /\ (0 < List.length sd)%nat
    /\ nth 0 sd 0 = s /\ nth 0 ed 0 = s + limit - 1
    /\ (forall i, (i < List.length sd)%nat -> nth i ed 0 - nth i sd 0 + 1 <= limit)
    /\ (forall i, (S i < List.length sd)%nat -> nth i ed 0 - nth i sd 0 + 1 = limit).
Proof.
  intros Hs He Hl Hd Hmax Hnext.
  exists (fst (split_days s e limit)), (snd (split_days s e limit)).
  pose proof (split_days_length_starts s e limit Hl Hd) as Hn.
  destruct (span_split s e limit Hl Hd) as [Hq Hr].
  destruct (full_chunks s e limit Hl Hd) as [Hk Hk'].
  rewrite (ceil_div_qr _ _ _ _ Hl Hq Hr) in Hn.
  assert (Hfull : forall i, (S i < List.length (fst (split_days s e limit)))%nat ->
            nth i (snd (split_days s e limit)) 0
            - nth i (fst (split_days s e limit)) 0 + 1 = limit).
  { intros i Hi.
    rewrite split_days_nth_end, split_days_nth_start by (assumption || lia). lia. }
  split; [apply split_dates_by_limit_days; assumption|].
  split; [apply split_days_length_ends|].
  split; [destruct ((e - s) mod limit =? 0); lia|].
  split.
  { rewrite split_days_nth_start by (try assumption; destruct ((e - s) mod limit =? 0); lia).
    change (Z.of_nat 0) with 0. lia. }
  split; [apply split_days_first_end; assumption|].
  split; [|exact Hfull].
  intros i Hi.
  destruct (Nat.eq_dec (S i) (List.length (fst (split_days s e limit)))) as [Hlast|Hmid].
  - replace i with (List.length (fst (split_days s e limit)) - 1)%nat at 1 by lia.
    rewrite split_days_last_end, split_days_nth_start by assumption.
    destruct ((e - s) mod limit =? 0) eqn:R.
    + apply Z.eqb_eq in R. nia.
    + nia.
  - rewrite Hfull by lia. lia.
Qed.

Lemma chunk_lengths_witness :
  exists sd ed,
    split_dates_by_limit "01/01/17" "12/31/18" 90 mdy []
    = (Returned (Some (dates_dict mdy sd ed)), [])
    /\ List.length ed = List.length sd /\ (0 < List.length sd)%nat
    /\ nth 0 sd 0 = 17167 /\ nth 0 ed 0 = 17167 + 90 - 1
    /\ (forall i, (i < List.length sd)%nat -> nth i ed 0 - nth i sd 0 + 1 <= 90)
    /\ (forall i, (S i < List.length sd)%nat -> nth i ed 0 - nth i sd 0 + 1 = 90).
Proof.
  apply (chunk_lengths mdy "01/01/17" "12/31/18" 90 17167 17896 []).
  - split; [vm_compute; reflexivity | unfold Timestamp_min_day, Timestamp_max_day; lia].
  - split; [vm_compute; reflexivity | unfold Timestamp_min_day, Timestamp_max_day; lia].
  - lia.
  - lia.
  - unfold Timestamp_max_day. lia.
  - vm_compute. discriminate.
Defined.

(** C6. The call of the docstring: 01/01/17 to 12/31/18 with a limit of 90
    days under ["%m/%d/%y"] returns the nine start dates and the nine end
    dates listed there. *)
Theorem docstring_example :
  compile "%m/%d/%y" = Some [pct_m; lit "/"; pct_d; lit "/"; pct_y]
  /\ split_dates_by_limit "01/01/17" "12/31/18" 90 mdy []
     = (Returned
          (Some [("start_dates"%string,
                  ["01/01/17"; "04/01/17"; "06/30/17"; "09/28/17"; "12/27/17";
                   "03/27/18"; "06/25/18"; "09/23/18"; "12/22/18"]%string);
                 ("end_dates"%string,
                  ["03/31/17"; "06/29/17"; "09/27/17"; "12/26/17"; "03/26/18";
                   "06/24/18"; "09/22/18"; "12/21/18"; "12/31/18"]%string)]),
        []).
Proof. split; vm_compute; reflexivity. Qed.

(** The call of [Oasis.get] in [main.py], on the dates of its docstring:
    January and February 2018 under a limit of 30 days and ["%Y%m%d"]. *)
Example main_call :
  split_dates_by_limit "20180101" "20180301" 30 Ymd []
  = (Returned (Some [("start_dates"%string, ["20180101"; "20180131"]%string);
                     ("end_dates"%string, ["20180130"; "20180301"]%string)]), []).
Proof. vm_compute. reflexivity. Qed.

(** C7, as the specification states it, fails on the code: a limit of -1
    raises nothing, and one chunk that ends before it starts is returned. *)
Lemma negative_limit_returns_a_chunk :
  split_dates_by_limit "01/01/17" "01/15/17" (-1) mdy []
  = (Returned (Some [("start_dates"%string, ["01/01/17"%string]);
                     ("end_dates"%string, ["12/30/16"%string])]), [])
  /\ ~ (exists x, fst (split_dates_by_limit "01/01/17" "01/15/17" (-1) mdy [])
                  = Raised x).
Proof.
  split.
  - vm_compute. reflexivity.
  - intros [x Hx]. vm_compute in Hx. discriminate Hx.
Qed.

(** C7, amended.  For dates that [pd.to_datetime] reads, with start <= end
    and a span of at most 106751 days: a limit of 0 makes the call fail
    with [ZeroDivisionError], raised by the division that counts the
    chunks, and nothing is returned or printed; a negative limit of at most
    106751 days, with start + limit on or after 1677-09-22, raises nothing,
    and the call returns the single chunk from start to start + limit - 1
    day. *)
Theorem nonpositive_limit f start_date end_date limit s e out :
  reads f start_date s -> reads f end_date e ->
  s <= e -> e - s <= Timestamp_max_day ->
  (limit = 0 ->
   split_dates_by_limit start_date end_date limit f out
   = (Raised ZeroDivisionError, out))
  /\ (limit < 0 -> Timestamp_min_day <= limit -> Timestamp_min_day <= s + limit ->
      split_dates_by_limit start_date end_date limit f out
      = (Returned (Some (dates_dict f [s] [s + limit - 1])), out)).
Proof.
  intros Hs He Hse Hmax. split.
  - intros ->. apply (split_dates_by_limit_zero f _ _ s e); try assumption. lia.
  - intros Hl Hlmin Hsl.
    apply (split_dates_by_limit_negative f _ _ limit s e); try assumption;
      unfold Timestamp_max_day in *; lia.
Qed.

Lemma nonpositive_limit_witness :
  split_dates_by_limit "01/01/17" "01/15/17" 0 mdy [] = (Raised ZeroDivisionError, [])
  /\ split_dates_by_limit "01/01/17" "01/15/17" (-1) mdy []
     = (Returned (Some (dates_dict mdy [17167] [17167 + -1 - 1])), []).
Proof.
  split.
  - refine (proj1 (nonpositive_limit mdy "01/01/17" "01/15/17" 0 17167 17181 []
                     _ _ _ _) _).
    + split; [vm_compute; reflexivity | unfold Timestamp_min_day, Timestamp_max_day; lia].
    + split; [vm_compute; reflexivity | unfold Timestamp_min_day, Timestamp_max_day; lia].
    + lia.
    + unfold Timestamp_max_day. lia.
    + reflexivity.
  - refine (proj2 (nonpositive_limit mdy "01/01/17" "01/15/17" (-1) 17167 17181 []
                     _ _ _ _) _ _ _).
    + split; [vm_compute; reflexivity | unfold Timestamp_min_day, Timestamp_max_day; lia].
    + split; [vm_compute; reflexivity | unfold Timestamp_min_day, Timestamp_max_day; lia].
    + lia.
    + unfold Timestamp_max_day. lia.
    + lia.
    + unfold Timestamp_min_day. lia.
    + unfold Timestamp_min_day. lia.
Defined.

(** C8, as the specification states it, fails on the code: with an end
    date that does not parse and a limit of 106752 days the call fails on
    line 132, before the dates are looked at, with the [OverflowError] of
    [pd.Timedelta] and not with the error of a malformed date. *)
Lemma malformed_date_behind_overflow :
  split_dates_by_limit "01/01/17" "02/30/17" 106752 mdy [] = (Raised OverflowError, [])
  /\ strptime mdy "02/30/17" = None
  /\ fst (split_dates_by_limit "01/01/17" "02/30/17" 106752 mdy []) <> Raised ValueError.
Proof.
  assert (E : split_dates_by_limit "01/01/17" "02/30/17" 106752 mdy []
              = (Raised OverflowError, [])) by (vm_compute; reflexivity).
  split; [exact E|]. split; [vm_compute; reflexivity|].
  rewrite E. discriminate.
Qed.

(** C8, amended.  For a limit between -106751 and 106751 days: when the
    start date or the end date does not parse under the pattern, the call
    fails, returning and printing nothing, with the [ValueError] of
    [pd.to_datetime], or with its [OutOfBoundsDatetime] (a [ValueError]
    too) when the start date parses to a day that a [pd.Timestamp] does not
    hold. *)
Theorem malformed_date_raises f start_date end_date limit out :
  Timestamp_min_day <= limit <= Timestamp_max_day ->
  strptime f start_date = None \/ strptime f end_date = None ->
  exists x,
    split_dates_by_limit start_date end_date limit f out = (Raised x, out)
    /\ (x = ValueError \/ x = OutOfBoundsDatetime)
    /\ (x = OutOfBoundsDatetime
        <-> exists s, strptime f start_date = Some s
                      /\ ~ (Timestamp_min_day <= s <= Timestamp_max_day)).
Proof.
  intros Hl H.
  destruct (strptime f start_date) as [s|] eqn:Ps.
  - destruct H as [H|H]; [discriminate H|].
    destruct (Z_le_gt_dec Timestamp_min_day s) as [Hlo|Hlo];
      [destruct (Z_le_gt_dec s Timestamp_max_day) as [Hhi|Hhi]|].
    + exists ValueError. split.
      * apply (split_dates_by_limit_end_unread f _ _ limit s); try assumption.
        split; [exact Ps | lia].
      * split; [left; reflexivity|]. split; [discriminate|].
        intros (s' & E & Hr). injection E as <-. lia.
    + exists OutOfBoundsDatetime. split.
      * apply (split_dates_by_limit_start_out_of_range f _ _ limit s);
          try assumption. lia.
      * split; [right; reflexivity|]. split; [|reflexivity].
        intros _. exists s. split; [reflexivity | lia].
    + exists OutOfBoundsDatetime. split.
      * apply (split_dates_by_limit_start_out_of_range f _ _ limit s);
          try assumption. lia.
      * split; [right; reflexivity|]. split; [|reflexivity].
        intros _. exists s. split; [reflexivity | lia].
  - exists ValueError. split.
    + apply split_dates_by_limit_start_unread; assumption.
    + split; [left; reflexivity|]. split; [discriminate|].
      intros (s' & E & _). discriminate E.
Qed.

Lemma malformed_date_raises_witness :
  (exists x,
     split_dates_by_limit "01/01/17" "02/30/17" 30 mdy [] = (Raised x, [])
     /\ (x = ValueError \/ x = OutOfBoundsDatetime)
     /\ (x = OutOfBoundsDatetime
         <-> exists s, strptime mdy "01/01/17" = Some s
                       /\ ~ (Timestamp_min_day <= s <= Timestamp_max_day)))
  /\ (exists x,
        split_dates_by_limit "13/01/17" "01/15/17" 30 mdy [] = (Raised x, [])
        /\ (x = ValueError \/ x = OutOfBoundsDatetime)
        /\ (x = OutOfBoundsDatetime
            <-> exists s, strptime mdy "13/01/17" = Some s
                          /\ ~ (Timestamp_min_day <= s <= Timestamp_max_day)))
  /\ (exists x,
        split_dates_by_limit "16000101" "20180230" 30 Ymd [] = (Raised x, [])
        /\ (x = ValueError \/ x = OutOfBoundsDatetime)
        /\ (x = OutOfBoundsDatetime
            <-> exists s, strptime Ymd "16000101" = Some s
                          /\ ~ (Timestamp_min_day <= s <= Timestamp_max_day))).
Proof.
  split; [|split].
  - apply (malformed_date_raises mdy "01/01/17" "02/30/17" 30 []).
    + unfold Timestamp_min_day, Timestamp_max_day. lia.
    + right. vm_compute. reflexivity.
  - apply (malformed_date_raises mdy "13/01/17" "01/15/17" 30 []).
    + unfold Timestamp_min_day, Timestamp_max_day. lia.
    + left. vm_compute. reflexivity.
  - apply (malformed_date_raises Ymd "16000101" "20180230" 30 []).
    + unfold Timestamp_min_day, Timestamp_max_day. lia.
    + right. vm_compute. reflexivity.
Defined.

(** C9, as the specification states it, fails on the code: from 2262-03-01
    to 2262-04-11 under a limit of 25 days the call writes a line to
    standard output. *)
Lemma overflow_prints_a_line :
  split_dates_by_limit "22620301" "22620411" 25 Ymd []
  = (Returned (Some [("start_dates"%string, ["22620301"; "22620326"]%string);
                     ("end_dates"%string, ["22620325"%string])]),
     ["Critical Failed to split start and end dates for API calls."%string])
  /\ snd (split_dates_by_limit "22620301" "22620411" 25 Ymd []) <> [].
Proof.
  assert (E : split_dates_by_limit "22620301" "22620411" 25 Ymd []
              = (Returned (Some [("start_dates"%string, ["22620301"; "22620326"]%string);
                                 ("end_dates"%string, ["22620325"%string])]),
                 ["Critical Failed to split start and end dates for API calls."%string]))
    by (vm_compute; reflexivity).
  split; [exact E|]. rewrite E. discriminate.
Qed.

(** C9, amended.  What a call returns or raises, and what it prints, are
    the same whatever was printed before it.  It prints nothing or the one
    line of its handler, and it prints that line exactly when both dates
    are read, 0 < limit <= end - start <= 106751 days, and start +
    ceil((end - start) / limit) * limit is after 2262-04-11. *)
Theorem prints_only_on_overflow start_date end_date limit f :
  forall out,
    fst (split_dates_by_limit start_date end_date limit f out)
    = fst (split_dates_by_limit start_date end_date limit f [])
    /\ snd (split_dates_by_limit start_date end_date limit f out)
       = out ++ snd (split_dates_by_limit start_date end_date limit f [])
    /\ (snd (split_dates_by_limit start_date end_date limit f []) = []
        \/ snd (split_dates_by_limit start_date end_date limit f []) = [critical])
    /\ (snd (split_dates_by_limit start_date end_date limit f []) = [critical]
        <-> exists s e,
              reads f start_date s /\ reads f end_date e
              /\ 0 < limit /\ limit <= e - s /\ e - s <= Timestamp_max_day
              /\ Timestamp_max_day < next_start s e limit).
Proof.
  set (P := exists s e,
              reads f start_date s /\ reads f end_date e
              /\ 0 < limit /\ limit <= e - s /\ e - s <= Timestamp_max_day
              /\ Timestamp_max_day < next_start s e limit).
  assert (Hmm : Timestamp_min_day = -106751 /\ Timestamp_max_day = 106751)
    by (split; reflexivity).
  destruct (Z_le_gt_dec Timestamp_min_day limit) as [Hl1|Hl1];
    [destruct (Z_le_gt_dec limit Timestamp_max_day) as [Hl2|Hl2]|].
  2:{ apply prints_nothing with (r := Raised OverflowError).
      - intros out. apply split_dates_by_limit_overflow. lia.
      - intros (s & e & _ & _ & ? & ? & ? & _). lia. }
  2:{ apply prints_nothing with (r := Raised OverflowError).
      - intros out. apply split_dates_by_limit_overflow. lia.
      - intros (s & e & _ & _ & ? & ? & ? & _). lia. }
  assert (Hl : Timestamp_min_day <= limit <= Timestamp_max_day) by lia.
  destruct (strptime f start_date) as [s|] eqn:Ps.
  2:{ apply prints_nothing with (r := Raised ValueError).
      - intros out. apply split_dates_by_limit_start_unread; assumption.
      - intros (s & e & [E _] & _). congruence. }
  destruct (Z_le_gt_dec Timestamp_min_day s) as [Hs1|Hs1];
    [destruct (Z_le_gt_dec s Timestamp_max_day) as [Hs2|Hs2]|].
  2:{ apply prints_nothing with (r := Raised OutOfBoundsDatetime).
      - intros out. apply (split_dates_by_limit_start_out_of_range f _ _ limit s);
          try assumption. lia.
      - intros (s' & e & [E ?] & _). rewrite Ps in E. injection E as <-. lia. }
  2:{ apply prints_nothing with (r := Raised OutOfBoundsDatetime).
      - intros out. apply (split_dates_by_limit_start_out_of_range f _ _ limit s);
          try assumption. lia.
      - intros (s' & e & [E ?] & _). rewrite Ps in E. injection E as <-. lia. }
  assert (Hs : reads f start_date s) by (split; [exact Ps | lia]).
  destruct (strptime f end_date) as [e|] eqn:Pe.
  2:{ apply prints_nothing with (r := Raised ValueError).
      - intros out. apply (split_dates_by_limit_end_unread f _ _ limit s); assumption.
      - intros (s' & e & _ & [E _] & _). congruence. }
  destruct (Z_le_gt_dec Timestamp_min_day e) as [He1|He1];
    [destruct (Z_le_gt_dec e Timestamp_max_day) as [He2|He2]|].
  2:{ apply prints_nothing with (r := Raised OutOfBoundsDatetime).
      - intros out. apply (split_dates_by_limit_end_out_of_range f _ _ limit s e);
          try assumption. lia.
      - intros (s' & e' & _ & [E ?] & _). rewrite Pe in E. injection E as <-. lia. }
  2:{ apply prints_nothing with (r := Raised OutOfBoundsDatetime).
      - intros out. apply (split_dates_by_limit_end_out_of_range f _ _ limit s e);
          try assumption. lia.
      - intros (s' & e' & _ & [E ?] & _). rewrite Pe in E. injection E as <-. lia. }
  assert (He : reads f end_date e) by (split; [exact Pe | lia]).
  assert (Uniq : forall s' e', reads f start_date s' -> reads f end_date e' ->
                               s' = s /\ e' = e).
  { intros s' e' Hs' He'. split; eapply reads_unique; eassumption. }
  destruct (Z_le_gt_dec (- Timestamp_max_day) (e - s)) as [Hd1|Hd1];
    [destruct (Z_le_gt_dec (e - s) Timestamp_max_day) as [Hd2|Hd2]|].
  2:{ apply prints_nothing with (r := Raised OutOfBoundsDatetime).
      - intros out. apply (split_dates_by_limit_span_out_of_range f _ _ limit s e);
          try assumption. lia.
      - intros (s' & e' & Hs' & He' & ? & ? & ? & _).
        destruct (Uniq _ _ Hs' He') as [-> ->]. lia. }
  2:{ apply prints_nothing with (r := Raised OutOfBoundsDatetime).
      - intros out. apply (split_dates_by_limit_span_out_of_range f _ _ limit s e);
          try assumption. lia.
      - intros (s' & e' & Hs' & He' & ? & ? & ? & _).
        destruct (Uniq _ _ Hs' He') as [-> ->]. lia. }
  destruct (Z_lt_le_dec (e - s) limit) as [Hlt|Hle].
  { apply prints_nothing with (r := Returned None).
    - intros out. apply (split_dates_by_limit_none f _ _ limit s e); try assumption. lia.
    - intros (s' & e' & Hs' & He' & ? & ? & ? & _).
      destruct (Uniq _ _ Hs' He') as [-> ->]. lia. }
  destruct (Z_dec limit 0) as [[Hneg|Hpos]|Hzero].
  - destruct (Z_le_gt_dec Timestamp_min_day (s + limit)) as [Hf|Hf].
    + apply prints_nothing
        with (r := Returned (Some (dates_dict f [s] [s + limit - 1]))).
      * intros out. apply (split_dates_by_limit_negative f _ _ limit s e);
          try assumption; lia.
      * intros (s' & e' & _ & _ & ? & _). lia.
    + apply prints_nothing with (r := Raised OutOfBoundsDatetime).
      * intros out.
        apply (split_dates_by_limit_first_out_of_range f _ _ limit s e);
          try assumption; lia.
      * intros (s' & e' & _ & _ & ? & _). lia.
  - assert (Hpos' : 0 < limit) by lia.
    destruct (Z_le_gt_dec (next_start s e limit) Timestamp_max_day) as [Hn|Hn].
    + apply prints_nothing
        with (r := Returned (Some (dates_dict f (fst (split_days s e limit))
                                                (snd (split_days s e limit))))).
      * intros out. apply split_dates_by_limit_days; assumption.
      * intros (s' & e' & Hs' & He' & _ & _ & _ & ?).
        destruct (Uniq _ _ Hs' He') as [-> ->]. lia.
    + apply prints_critical
        with (r := Returned (Some (dates_dict f
                       (chunk_starts s limit (S (full_chunk_count s e limit)))
                       (chunk_ends s limit (full_chunk_count s e limit))))).
      * intros out. apply split_dates_by_limit_broken; assumption || lia.
      * exists s, e. repeat split; try assumption; try lia; apply Hs || apply He.
  - subst limit. apply prints_nothing with (r := Raised ZeroDivisionError).
    + intros out. apply (split_dates_by_limit_zero f _ _ s e); try assumption. lia.
    + intros (s' & e' & _ & _ & ? & _). lia.
Qed.

(** C10, as the specification states it, fails on the code: from
    1700-01-01 to 1992-04-12 the span is 106752 days, once the limit of
    106752 days, and no chunk is returned: line 132 raises. *)
Lemma exact_multiple_beyond_timedelta :
  split_dates_by_limit "17000101" "19920412" 106752 Ymd [] = (Raised OverflowError, [])
  /\ strptime Ymd "17000101" = Some (-98615) /\ strptime Ymd "19920412" = Some 8137
  /\ 8137 - -98615 = 1 * 106752
  /\ ~ (exists d out, split_dates_by_limit "17000101" "19920412" 106752 Ymd []
                      = (Returned d, out)).
Proof.
  assert (E : split_dates_by_limit "17000101" "19920412" 106752 Ymd []
              = (Raised OverflowError, [])) by (vm_compute; reflexivity).
  split; [exact E|].
  split; [vm_compute; reflexivity|]. split; [vm_compute; reflexivity|].
  split; [lia|].
  intros (d & out & H). rewrite E in H. discriminate H.
Qed.

(** C10, amended.  For dates that [pd.to_datetime] reads whose span is an
    exact positive multiple k * limit of the limit and at most 106751
    days, the call returns k chunks of exactly limit days each, the last of
    which ends one day before the end date: no chunk contains the end
    date.  Nothing is printed. *)
Theorem exact_multiple_stops_short f start_date end_date limit s e k out :
  reads f start_date s -> reads f end_date e ->
  0 < limit -> 0 < k -> e - s = k * limit -> e - s <= Timestamp_max_day ->
  exists sd ed,
    split_dates_by_limit start_date end_date limit f out
    = (Returned (Some (dates_dict f sd ed)), out)
    /\ Z.of_nat (List.length sd) = k /\ Z.of_nat (List.length ed) = k
    /\ (forall i, (i < List.length sd)%nat -> nth i ed 0 - nth i sd 0 + 1 = limit)
    /\ nth (List.length ed - 1) ed 0 = e - 1
    /\ (forall i, (i < List.length sd)%nat -> ~ (nth i sd 0 <= e <= nth i ed 0)).
Proof.
  intros Hs He Hl Hk Hspan Hmax.
  assert (Hd : limit <= e - s) by nia.
  assert (R : (e - s) mod limit = 0) by (rewrite Hspan; apply Z.mod_mul; lia).
  exists (chunk_starts s limit (Z.to_nat k)), (chunk_ends s limit (Z.to_nat k)).
  split.
  { rewrite (split_dates_by_limit_days f _ _ s e limit Hs He Hl Hd Hmax out).
    - unfold split_days, full_chunk_count.
      rewrite Hspan, Z.mod_mul, Z.div_mul by lia. reflexivity.
    - rewrite (next_start_cases s e limit Hl Hd), R. cbn [Z.eqb].
      apply (proj2 He). }
  rewrite length_chunk_starts, length_chunk_ends.
  split; [lia|]. split; [lia|]. split; [|split].
  - intros i Hi. rewrite nth_chunk_ends, nth_chunk_starts by exact Hi. lia.
  - rewrite nth_chunk_ends by lia. rewrite Nat2Z.inj_sub by lia.
    change (Z.of_nat 1) with 1. nia.
  - intros i Hi. rewrite nth_chunk_ends, nth_chunk_starts by exact Hi. nia.
Qed.

Lemma exact_multiple_stops_short_witness :
  exists sd ed,
    split_dates_by_limit "01/01/17" "03/02/17" 30 mdy []
    = (Returned (Some (dates_dict mdy sd ed)), [])
    /\ Z.of_nat (List.length sd) = 2 /\ Z.of_nat (List.length ed) = 2
    /\ (forall i, (i < List.length sd)%nat -> nth i ed 0 - nth i sd 0 + 1 = 30)
    /\ nth (List.length ed - 1) ed 0 = 17227 - 1
    /\ (forall i, (i < List.length sd)%nat -> ~ (nth i sd 0 <= 17227 <= nth i ed 0)).
Proof.
  apply (exact_multiple_stops_short mdy "01/01/17" "03/02/17" 30 17167 17227 2 []).
  - split; [vm_compute; reflexivity | unfold Timestamp_min_day, Timestamp_max_day; lia].
  - split; [vm_compute; reflexivity | unfold Timestamp_min_day, Timestamp_max_day; lia].
  - lia.
  - lia.
  - lia.
  - unfold Timestamp_max_day. lia.
Defined.

(* ===================================================================== *)
(** ** The calendar and the patterns: round trips *)
(* ===================================================================== *)

Import Calendar.

(** The day number of the date of a day is that day. *)
Lemma days_from_civil_from_days z :
  let '(y, m, d) := civil_from_days z in days_from_civil y m d = z.
Proof.
  unfold civil_from_days, days_from_civil. cbv zeta.
  set (z' := z + 719468).
  set (era := z' / 146097).
  set (doe := z' - era * 146097).
  assert (Hdoe : 0 <= doe <= 146096).
  { subst doe era. Z.div_mod_to_equations. lia. }
  assert (Hz : z = era * 146097 + doe - 719468) by (subst doe z'; lia).
  clearbody doe. clearbody era. clear z'.
  set (yoe := (doe - doe / 1460 + doe / 36524 - doe / 146096) / 365).
  set (doy := doe - (365 * yoe + yoe / 4 - yoe / 100)).
  assert (Hy : 0 <= yoe <= 399 /\ 0 <= doy <= 365).
  { subst doy yoe. Z.div_mod_to_equations. lia. }
  assert (Hdoy : doe = 365 * yoe + yoe / 4 - yoe / 100 + doy) by (subst doy; lia).
  clearbody doy. clearbody yoe.
  set (mp := (5 * doy + 2) / 153).
  assert (Hmp : 0 <= mp <= 11) by (subst mp; Z.div_mod_to_equations; lia).
  clearbody mp.
  destruct (Z.ltb_spec mp 10).
  - destruct (Z.leb_spec (mp + 3) 2); [lia|].
    destruct (Z.ltb_spec 2 (mp + 3)); [|lia].
    replace (mp + 3 - 3) with mp by lia.
    replace ((yoe + era * 400) / 400) with era
      by (Z.div_mod_to_equations; lia).
    replace (yoe + era * 400 - era * 400) with yoe by lia.
    lia.
  - destruct (Z.leb_spec (mp - 9) 2); [|lia].
    destruct (Z.ltb_spec 2 (mp - 9)); [lia|].
    replace (mp - 9 + 9) with mp by lia.
    replace (yoe + era * 400 + 1 - 1) with (yoe + era * 400) by lia.
    replace ((yoe + era * 400) / 400) with era
      by (Z.div_mod_to_equations; lia).
    replace (yoe + era * 400 - era * 400) with yoe by lia.
    lia.
Qed.

Lemma is_leap_shift yoe era :
  is_leap (yoe + era * 400 + 1) = is_leap (yoe + 1).
Proof.
  unfold is_leap.
  replace ((yoe + era * 400 + 1) mod 4) with ((yoe + 1) mod 4)
    by (Z.div_mod_to_equations; lia).
  replace ((yoe + era * 400 + 1) mod 100) with ((yoe + 1) mod 100)
    by (Z.div_mod_to_equations; lia).
  replace ((yoe + era * 400 + 1) mod 400) with ((yoe + 1) mod 400)
    by (Z.div_mod_to_equations; lia).
  reflexivity.
Qed.

Lemma days_in_month_of_mp y mp :
  0 <= mp <= 11 ->
  days_in_month y (if mp <? 10 then mp + 3 else mp - 9)
  = if mp =? 11 then (if is_leap y then 29 else 28)
    else if (mp =? 1) || (mp =? 3) || (mp =? 6) || (mp =? 8) then 30 else 31.
Proof.
  intros H.
  assert (C : mp = 0 \/ mp = 1 \/ mp = 2 \/ mp = 3 \/ mp = 4 \/ mp = 5 \/ mp = 6
              \/ mp = 7 \/ mp = 8 \/ mp = 9 \/ mp = 10 \/ mp = 11) by lia.
  destruct C as [->|[->|[->|[->|[->|[->|[->|[->|[->|[->|[->| ->]]]]]]]]]]];
    reflexivity.
Qed.

(** The date of a day has a month from 1 to 12 and a day of that month. *)
Lemma civil_from_days_valid z :
  let '(y, m, d) := civil_from_days z in
  1 <= m <= 12 /\ 1 <= d <= days_in_month y m.
Proof.
  unfold civil_from_days. cbv zeta.
  set (z' := z + 719468).
  set (era := z' / 146097).
  set (doe := z' - era * 146097).
  assert (Hdoe : 0 <= doe <= 146096).
  { subst doe era. Z.div_mod_to_equations. lia. }
  clearbody doe. clearbody era. clear z'.
  set (yoe := (doe - doe / 1460 + doe / 36524 - doe / 146096) / 365).
  set (doy := doe - (365 * yoe + yoe / 4 - yoe / 100)).
  assert (Hy : 0 <= yoe <= 399 /\ 0 <= doy <= 365).
  { subst doy yoe. Z.div_mod_to_equations. lia. }
  assert (Hleap : doy = 365 -> is_leap (yoe + 1) = true).
  { intros H365.
    assert ((yoe + 1) mod 4 = 0
            /\ ((yoe + 1) mod 100 <> 0 \/ (yoe + 1) mod 400 = 0)) as [L4 L100].
    { subst doy yoe. Z.div_mod_to_equations. lia. }
    unfold is_leap. rewrite L4. simpl.
    destruct L100 as [L|L].
    - apply Z.eqb_neq in L. rewrite L. reflexivity.
    - rewrite L. apply orb_true_r. }
  clearbody doy. clearbody yoe.
  set (mp := (5 * doy + 2) / 153).
  assert (Hmp : 0 <= mp <= 11) by (subst mp; Z.div_mod_to_equations; lia).
  set (d := doy - (153 * mp + 2) / 5 + 1).
  assert (Hd : 1 <= d /\ d <= 31
               /\ (mp = 1 \/ mp = 3 \/ mp = 6 \/ mp = 8 -> d <= 30)
               /\ (mp = 11 -> d <= 29 /\ (d = 29 -> doy = 365))).
  { subst d mp. Z.div_mod_to_equations. lia. }
  clearbody d. clearbody mp.
  destruct Hd as (D1 & D31 & D30 & D29).
  split; [destruct (Z.ltb_spec mp 10); lia|].
  rewrite (days_in_month_of_mp _ mp Hmp).
  destruct (Z.eqb_spec mp 11) as [E11|N11].
  - subst mp. change (if 11 <? 10 then 11 + 3 else 11 - 9) with 2.
    change (2 <=? 2) with true. cbv iota.
    rewrite is_leap_shift.
    destruct (is_leap (yoe + 1)) eqn:Leap; [lia|].
    assert (d <> 29).
    { intros E. destruct D29 as [_ D29]; [reflexivity|].
      pose proof (Hleap (D29 E)) as T. congruence. }
    lia.
  - destruct (Z.eqb_spec mp 1), (Z.eqb_spec mp 3), (Z.eqb_spec mp 6), (Z.eqb_spec mp 8);
      cbn [orb]; lia.
Qed.

(** The days whose year a two-digit year can name. *)
Lemma civil_year_two_digit z :
  -365 <= z <= 36159 ->
  let '(y, m, d) := civil_from_days z in 1969 <= y <= 2068.
Proof.
  intros Hz. unfold civil_from_days. cbv zeta.
  set (z' := z + 719468).
  set (era := z' / 146097).
  set (doe := z' - era * 146097).
  assert (Hdoe : 0 <= doe <= 146096).
  { subst doe era. Z.div_mod_to_equations. lia. }
  assert (He : z' = era * 146097 + doe) by (subst doe; lia).
  assert (Hz' : 719103 <= z' <= 755627) by (subst z'; lia).
  clearbody doe. clearbody era. clearbody z'.
  set (yoe := (doe - doe / 1460 + doe / 36524 - doe / 146096) / 365).
  set (doy := doe - (365 * yoe + yoe / 4 - yoe / 100)).
  set (mp := (5 * doy + 2) / 153).
  destruct (Z.ltb_spec mp 10); [destruct (Z.leb_spec (mp + 3) 2)|destruct (Z.leb_spec (mp - 9) 2)];
  subst mp doy yoe; (Z.div_mod_to_equations; lia).
Qed.

(** The days of the range of [pd.Timestamp] have four-digit years. *)
Lemma civil_year_timestamp z :
  -106751 <= z <= 106751 ->
  let '(y, m, d) := civil_from_days z in 1677 <= y <= 2262.
Proof.
  intros Hz. unfold civil_from_days. cbv zeta.
  set (z' := z + 719468).
  set (era := z' / 146097).
  set (doe := z' - era * 146097).
  assert (Hdoe : 0 <= doe <= 146096).
  { subst doe era. Z.div_mod_to_equations. lia. }
  assert (He : z' = era * 146097 + doe) by (subst doe; lia).
  assert (Hz' : 612717 <= z' <= 826219) by (subst z'; lia).
  clearbody doe. clearbody era. clearbody z'.
  set (yoe := (doe - doe / 1460 + doe / 36524 - doe / 146096) / 365).
  set (doy := doe - (365 * yoe + yoe / 4 - yoe / 100)).
  set (mp := (5 * doy + 2) / 153).
  destruct (Z.ltb_spec mp 10); [destruct (Z.leb_spec (mp + 3) 2)|destruct (Z.leb_spec (mp - 9) 2)];
  subst mp doy yoe; (Z.div_mod_to_equations; lia).
Qed.

Lemma Z_range_cases (P : Z -> Prop) (lo : Z) (n : nat) :
  (forall i, (i < n)%nat -> P (lo + Z.of_nat i)) ->
  forall z, lo <= z <= lo + Z.of_nat n - 1 -> P z.
Proof.
  intros H z Hz. replace z with (lo + Z.of_nat (Z.to_nat (z - lo))) by lia.
  apply H. lia.
Qed.

Lemma rng_digit_char lo hi v :
  0 <= v <= 9 ->
  rng lo hi (digit_char v) = if (lo <=? v) && (v <=? hi) then Some v else None.
Proof.
  revert v. apply (Z_range_cases _ 0 10). intros i Hi.
  do 10 (destruct i as [|i]; [reflexivity|]). lia.
Qed.

Lemma rng_digit_in lo hi v :
  0 <= v <= 9 -> lo <= v <= hi -> rng lo hi (digit_char v) = Some v.
Proof.
  intros H0 H. rewrite rng_digit_char by exact H0.
  destruct (Z.leb_spec lo v), (Z.leb_spec v hi); try lia. reflexivity.
Qed.

Lemma rng_digit_out lo hi v :
  0 <= v <= 9 -> v < lo \/ hi < v -> rng lo hi (digit_char v) = None.
Proof.
  intros H0 H. rewrite rng_digit_char by exact H0.
  destruct (Z.leb_spec lo v), (Z.leb_spec v hi); try lia; reflexivity.
Qed.

Lemma digits_of n : 0 <= n <= 99 -> 0 <= n / 10 <= 9 /\ 0 <= n mod 10 <= 9 /\ 10 * (n / 10) + n mod 10 = n.
Proof. intros H. Z.div_mod_to_equations. lia. Qed.

Lemma match_y_digits n rest :
  0 <= n <= 99 ->
  match_y (digit_char (n / 10) :: digit_char (n mod 10) :: rest) = [(n, rest)].
Proof.
  intros H. destruct (digits_of n H) as (Ha & Hb & Hn).
  unfold match_y, two. rewrite !rng_digit_in by lia. rewrite Hn. reflexivity.
Qed.

Lemma match_m_digits m rest :
  1 <= m <= 12 ->
  hd_error (match_m (digit_char (m / 10) :: digit_char (m mod 10) :: rest))
  = Some (m, rest).
Proof.
  revert m. apply (Z_range_cases _ 1 12). intros i Hi.
  do 12 (destruct i as [|i]; [reflexivity|]). lia.
Qed.

Lemma match_d_digits d rest :
  1 <= d <= 31 ->
  hd_error (match_d (digit_char (d / 10) :: digit_char (d mod 10) :: rest))
  = Some (d, rest).
Proof.
  revert d. apply (Z_range_cases _ 1 31). intros i Hi.
  do 31 (destruct i as [|i]; [reflexivity|]). lia.
Qed.

Lemma match_Y_digits y rest :
  0 <= y <= 9999 ->
  match_Y (digit_char (y / 100 / 10) :: digit_char ((y / 100) mod 10)
           :: digit_char (y mod 100 / 10) :: digit_char ((y mod 100) mod 10) :: rest)
  = [(y, rest)].
Proof.
  intros H. unfold match_Y.
  rewrite match_y_digits by (Z.div_mod_to_equations; lia).
  cbn [flat_map]. rewrite match_y_digits by (Z.div_mod_to_equations; lia).
  cbn [map app]. do 2 f_equal. Z.div_mod_to_equations; lia.
Qed.

Lemma hd_error_map {A B} (f : A -> B) (l : list A) :
  hd_error (map f l) = option_map f (hd_error l).
Proof. destruct l; reflexivity. Qed.

(** The first alternative of a directive decides when the rest of the
    pattern matches after it. *)
Lemma matches_head d ds fs cs x r :
  hd_error (step d fs cs) = Some x ->
  hd_error (matches ds (fst x) (snd x)) = Some r ->
  hd_error (matches (d :: ds) fs cs) = Some r.
Proof.
  intros Hx Hr. cbn [matches].
  destruct (step d fs cs) as [|x' tl]; [discriminate Hx|].
  injection Hx as ->. cbn [flat_map]. destruct x as [fs' cs']. cbn [fst snd] in Hr.
  destruct (matches ds fs' cs') as [|r' tl']; [discriminate Hr|].
  injection Hr as ->. reflexivity.
Qed.

Lemma parse_head ds s fs :
  hd_error (matches ds defaults (list_ascii_of_string s)) = Some (fs, []) ->
  parse ds s
  = if day fs <=? days_in_month (year fs) (month fs)
    then Some (days_from_civil (year fs) (month fs) (day fs))
    else None.
Proof.
  intros H. unfold parse.
  destruct (matches ds defaults (list_ascii_of_string s)) as [|[fs' cs'] tl];
    [discriminate H|].
  injection H as -> ->. reflexivity.
Qed.

(** Under ["%m/%d/%y"] a day from 01/01/69 to 12/31/68 is read back from
    its own string. *)
Lemma mdy_reads_back z :
  -365 <= z <= 36159 -> strptime mdy (strftime mdy z) = Some z.
Proof.
  intros Hz.
  pose proof (days_from_civil_from_days z) as R.
  pose proof (civil_from_days_valid z) as V.
  pose proof (civil_year_two_digit z Hz) as Y.
  unfold mdy, format; cbn [strptime strftime]. unfold render.
  destruct (civil_from_days z) as [[y m] d]. destruct V as [Vm Vd].
  assert (Hd31 : d <= 31).
  { unfold days_in_month in Vd.
    destruct (m =? 2);
      [destruct (is_leap y)
      |destruct ((m =? 4) || (m =? 6) || (m =? 9) || (m =? 11))]; lia. }
  rewrite (parse_head _ _ {| year := y; month := m; day := d |}).
  - cbn [year month day].
    destruct (Z.leb_spec d (days_in_month y m)); [|lia]. rewrite R. reflexivity.
  - cbn [map print_directive String.concat two_digits String.append list_ascii_of_string].
    eapply matches_head.
    { cbn [step]. rewrite hd_error_map, match_m_digits by lia. reflexivity. }
    cbn [fst snd]. eapply matches_head; [reflexivity|]. cbn [fst snd].
    eapply matches_head.
    { cbn [step]. rewrite hd_error_map, match_d_digits by lia. reflexivity. }
    cbn [fst snd]. eapply matches_head; [reflexivity|]. cbn [fst snd].
    eapply matches_head.
    { cbn [step]. rewrite match_y_digits by (Z.div_mod_to_equations; lia).
      reflexivity. }
    cbn [fst snd matches hd_error year month day].
    do 3 f_equal.
    destruct (Z.leb_spec (y mod 100) 68); Z.div_mod_to_equations; lia.
Qed.

(** Under ["%Y%m%d"] a day in the range of [pd.Timestamp] is read back
    from its own string. *)
Lemma Ymd_reads_back z :
  -106751 <= z <= 106751 -> strptime Ymd (strftime Ymd z) = Some z.
Proof.
  intros Hz.
  pose proof (days_from_civil_from_days z) as R.
  pose proof (civil_from_days_valid z) as V.
  pose proof (civil_year_timestamp z Hz) as Y.
  unfold Ymd, format; cbn [strptime strftime]. unfold render.
  destruct (civil_from_days z) as [[y m] d]. destruct V as [Vm Vd].
  assert (Hd31 : d <= 31).
  { unfold days_in_month in Vd.
    destruct (m =? 2);
      [destruct (is_leap y)
      |destruct ((m =? 4) || (m =? 6) || (m =? 9) || (m =? 11))]; lia. }
  rewrite (parse_head _ _ {| year := y; month := m; day := d |}).
  - cbn [year month day].
    destruct (Z.leb_spec d (days_in_month y m)); [|lia]. rewrite R. reflexivity.
  - cbn [map print_directive String.concat two_digits String.append list_ascii_of_string].
    eapply matches_head.
    { cbn [step]. rewrite match_Y_digits by lia. reflexivity. }
    cbn [fst snd]. eapply matches_head.
    { cbn [step]. rewrite hd_error_map, match_m_digits by lia. reflexivity. }
    cbn [fst snd]. eapply matches_head.
    { cbn [step]. rewrite hd_error_map, match_d_digits by lia. reflexivity. }
    reflexivity.
Qed.


(* ===================================================================== *)
(** ** Further properties of split_dates_by_limit *)
(* ===================================================================== *)

(** The i-th chunk in closed form: it starts [i] limits after the first
    day and ends a limit later, or at the last day if that comes first. *)
Lemma split_days_chunk s e l i :
  0 < l -> l <= e - s ->
  (i < List.length (fst (split_days s e l)))%nat ->
  nth i (fst (split_days s e l)) 0 = s + Z.of_nat i * l
  /\ nth i (snd (split_days s e l)) 0 = Z.min (s + (Z.of_nat i + 1) * l - 1) e.
Proof.
  intros Hl Hd Hi.
  pose proof (split_days_length_starts s e l Hl Hd) as Hn.
  destruct (span_split s e l Hl Hd) as [Hq Hr].
  destruct (full_chunks s e l Hl Hd) as [Hk Hk'].
  rewrite (ceil_div_qr _ _ _ _ Hl Hq Hr) in Hn.
  split; [apply split_days_nth_start; assumption|].
  destruct (Nat.eq_dec (S i) (List.length (fst (split_days s e l)))) as [Hlast|Hmid].
  - replace i with (List.length (fst (split_days s e l)) - 1)%nat at 1 by lia.
    rewrite split_days_last_end by assumption.
    destruct ((e - s) mod l =? 0) eqn:R.
    + apply Z.eqb_eq in R. nia.
    + nia.
  - rewrite split_days_nth_end by (assumption || lia).
    destruct ((e - s) mod l =? 0); nia.
Qed.

Lemma split_days_count s e l :
  0 < l -> l <= e - s ->
  let n := Z.of_nat (List.length (fst (split_days s e l))) in
  if (e - s) mod l =? 0 then n * l = e - s else (n - 1) * l < e - s < n * l.
Proof.
  intros Hl Hd. cbv zeta.
  pose proof (split_days_length_starts s e l Hl Hd) as Hn.
  destruct (span_split s e l Hl Hd) as [Hq Hr].
  destruct (full_chunks s e l Hl Hd) as [Hk Hk'].
  rewrite (ceil_div_qr _ _ _ _ Hl Hq Hr) in Hn.
  destruct ((e - s) mod l =? 0) eqn:R.
  - apply Z.eqb_eq in R. nia.
  - apply Z.eqb_neq in R. nia.
Qed.

(** Chunk [i] of [n] ends before the next multiple of the limit. *)
Lemma chunk_index_le (i : nat) (n l : Z) :
  0 < l -> Z.of_nat i + 1 <= n -> (Z.of_nat i + 1) * l <= n * l.
Proof. intros. nia. Qed.

Lemma nth_map_strftime f (l : list Z) i :
  (i < List.length l)%nat ->
  nth i (map (strftime f) l) EmptyString = strftime f (nth i l 0).
Proof.
  intros Hi.
  rewrite (nth_indep _ EmptyString (strftime f 0)) by (rewrite length_map; exact Hi).
  apply map_nth.
Qed.

(** The days of a chunk lie between the first and the last day of the
    span. *)
Lemma split_days_chunk_bounds s e l i :
  0 < l -> l <= e - s ->
  (i < List.length (fst (split_days s e l)))%nat ->
  s <= s + Z.of_nat i * l
  /\ s + Z.of_nat i * l <= Z.min (s + (Z.of_nat i + 1) * l - 1) e
  /\ Z.min (s + (Z.of_nat i + 1) * l - 1) e <= e.
Proof.
  intros Hl Hd Hi.
  pose proof (split_days_count s e l Hl Hd) as C. cbv zeta in C.
  pose proof (chunk_index_le i (Z.of_nat (List.length (fst (split_days s e l))))
                l Hl ltac:(lia)) as M.
  revert C. destruct ((e - s) mod l =? 0); intros C; lia.
Qed.

(** X1. For dates that [pd.to_datetime] reads and a limit with
    0 < limit <= end - start <= 106751 days, when start +
    ceil((end - start) / limit) * limit is on or before 2262-04-11: chunk i
    of the result starts i limits after the start date and ends
    limit - 1 days later, or on the end date if that comes first. *)
Theorem chunks_closed_form f start_date end_date limit s e out :
  reads f start_date s -> reads f end_date e ->
  0 < limit -> limit <= e - s -> e - s <= Timestamp_max_day ->
  next_start s e limit <= Timestamp_max_day ->
  exists sd ed,
    split_dates_by_limit start_date end_date limit f out
    = (Returned (Some (dates_dict f sd ed)), out)
    /\ List.length ed = List.length sd
    /\ forall i, (i < List.length sd)%nat ->
         nth i sd 0 = s + Z.of_nat i * limit
         /\ nth i ed 0 = Z.min (nth i sd 0 + limit - 1) e.
Proof.
  intros Hs He Hl Hd Hmax Hn.
  exists (fst (split_days s e limit)), (snd (split_days s e limit)).
  split; [apply split_dates_by_limit_days; assumption|].
  split; [apply split_days_length_ends|].
  intros i Hi. destruct (split_days_chunk s e limit i Hl Hd Hi) as [A B].
  rewrite A, B. split; [reflexivity|]. f_equal. lia.
Qed.

Lemma chunks_closed_form_witness :
  exists sd ed,
    split_dates_by_limit "01/01/17" "12/31/18" 90 mdy []
    = (Returned (Some (dates_dict mdy sd ed)), [])
    /\ List.length ed = List.length sd
    /\ forall i, (i < List.length sd)%nat ->
         nth i sd 0 = 17167 + Z.of_nat i * 90
         /\ nth i ed 0 = Z.min (nth i sd 0 + 90 - 1) 17896.
Proof.
  apply (chunks_closed_form mdy "01/01/17" "12/31/18" 90 17167 17896 []).
  - split; [vm_compute; reflexivity | unfold Timestamp_min_day, Timestamp_max_day; lia].
  - split; [vm_compute; reflexivity | unfold Timestamp_min_day, Timestamp_max_day; lia].
  - lia.
  - lia.
  - unfold Timestamp_max_day. lia.
  - vm_compute. discriminate.
Defined.

(** X2. Under the same conditions every start date has its end date, no
    chunk is empty or reversed and none leaves the requested range:
    start <= start of the chunk <= end of the chunk <= end. *)
Theorem chunks_within_span f start_date end_date limit s e out :
  reads f start_date s -> reads f end_date e ->
  0 < limit -> limit <= e - s -> e - s <= Timestamp_max_day ->
  next_start s e limit <= Timestamp_max_day ->
  exists sd ed,
    split_dates_by_limit start_date end_date limit f out
    = (Returned (Some (dates_dict f sd ed)), out)
    /\ List.length ed = List.length sd
    /\ forall i, (i < List.length sd)%nat ->
         s <= nth i sd 0 /\ nth i sd 0 <= nth i ed 0 /\ nth i ed 0 <= e.
Proof.
  intros Hs He Hl Hd Hmax Hn.
  exists (fst (split_days s e limit)), (snd (split_days s e limit)).
  split; [apply split_dates_by_limit_days; assumption|].
  split; [apply split_days_length_ends|].
  intros i Hi. destruct (split_days_chunk s e limit i Hl Hd Hi) as [A B].
  rewrite A, B. apply split_days_chunk_bounds; assumption.
Qed.

Lemma chunks_within_span_witness :
  exists sd ed,
    split_dates_by_limit "01/01/17" "12/31/18" 90 mdy []
    = (Returned (Some (dates_dict mdy sd ed)), [])
    /\ List.length ed = List.length sd
    /\ forall i, (i < List.length sd)%nat ->
         17167 <= nth i sd 0 /\ nth i sd 0 <= nth i ed 0 /\ nth i ed 0 <= 17896.
Proof.
  apply (chunks_within_span mdy "01/01/17" "12/31/18" 90 17167 17896 []).
  - split; [vm_compute; reflexivity | unfold Timestamp_min_day, Timestamp_max_day; lia].
  - split; [vm_compute; reflexivity | unfold Timestamp_min_day, Timestamp_max_day; lia].
  - lia.
  - lia.
  - unfold Timestamp_max_day. lia.
  - vm_compute. discriminate.
Defined.

(** X3. Under the same conditions the chunks come in increasing order and
    do not overlap: a chunk ends before every later chunk starts. *)
Theorem chunks_in_order f start_date end_date limit s e out :
  reads f start_date s -> reads f end_date e ->
  0 < limit -> limit <= e - s -> e - s <= Timestamp_max_day ->
  next_start s e limit <= Timestamp_max_day ->
  exists sd ed,
    split_dates_by_limit start_date end_date limit f out
    = (Returned (Some (dates_dict f sd ed)), out)
    /\ List.length ed = List.length sd
    /\ forall i j, (i < j < List.length sd)%nat -> nth i ed 0 < nth j sd 0.
Proof.
  intros Hs He Hl Hd Hmax Hn.
  exists (fst (split_days s e limit)), (snd (split_days s e limit)).
  split; [apply split_dates_by_limit_days; assumption|].
  split; [apply split_days_length_ends|].
  intros i j Hij.
  destruct (split_days_chunk s e limit i Hl Hd ltac:(lia)) as [_ B].
  destruct (split_days_chunk s e limit j Hl Hd ltac:(lia)) as [A _].
  rewrite A, B. nia.
Qed.

Lemma chunks_in_order_witness :
  exists sd ed,
    split_dates_by_limit "01/01/17" "12/31/18" 90 mdy []
    = (Returned (Some (dates_dict mdy sd ed)), [])
    /\ List.length ed = List.length sd
    /\ forall i j, (i < j < List.length sd)%nat -> nth i ed 0 < nth j sd 0.
Proof.
  apply (chunks_in_order mdy "01/01/17" "12/31/18" 90 17167 17896 []).
  - split; [vm_compute; reflexivity | unfold Timestamp_min_day, Timestamp_max_day; lia].
  - split; [vm_compute; reflexivity | unfold Timestamp_min_day, Timestamp_max_day; lia].
  - lia.
  - lia.
  - unfold Timestamp_max_day. lia.
  - vm_compute. discriminate.
Defined.

(** X4. Under the same conditions the chunks partition the days from
    start to end when the limit does not divide the span, and the days from
    start to end - 1 when it does: a day lies in a chunk exactly when it is
    in that range, and then in one chunk only. *)
Theorem chunks_partition f start_date end_date limit s e out :
  reads f start_date s -> reads f end_date e ->
  0 < limit -> limit <= e - s -> e - s <= Timestamp_max_day ->
  next_start s e limit <= Timestamp_max_day ->
  exists sd ed,
    split_dates_by_limit start_date end_date limit f out
    = (Returned (Some (dates_dict f sd ed)), out)
    /\ List.length ed = List.length sd
    /\ forall d,
         ((exists i, (i < List.length sd)%nat /\ nth i sd 0 <= d <= nth i ed 0)
          <-> s <= d <= (if (e - s) mod limit =? 0 then e - 1 else e))
         /\ (forall i j, (i < List.length sd)%nat -> (j < List.length sd)%nat ->
               nth i sd 0 <= d <= nth i ed 0 -> nth j sd 0 <= d <= nth j ed 0 ->
               i = j).
Proof.
  intros Hs He Hl Hd Hmax Hn.
  exists (fst (split_days s e limit)), (snd (split_days s e limit)).
  split; [apply split_dates_by_limit_days; assumption|].
  split; [apply split_days_length_ends|].
  intros d.
  pose proof (split_days_count s e limit Hl Hd) as C. cbv zeta in C.
  split; [split|].
  - intros (i & Hi & Hin).
    destruct (split_days_chunk s e limit i Hl Hd Hi) as [A B].
    pose proof (chunk_index_le i (Z.of_nat (List.length (fst (split_days s e limit))))
                limit Hl ltac:(lia)) as M.
    rewrite A, B in Hin. revert C.
    destruct ((e - s) mod limit =? 0); intros C; lia.
  - intros Hin.
    assert (Q : 0 <= (d - s) / limit) by (apply Z.div_pos; lia).
    pose proof (Z.div_mod (d - s) limit ltac:(lia)) as DM.
    pose proof (Z.mod_pos_bound (d - s) limit Hl) as MB.
    assert (Hi : (Z.to_nat ((d - s) / limit)
                  < List.length (fst (split_days s e limit)))%nat).
    { apply Nat2Z.inj_lt. rewrite Z2Nat.id by exact Q.
      apply Z.div_lt_upper_bound; [exact Hl|].
      revert C Hin. destruct ((e - s) mod limit =? 0); intros C Hin; lia. }
    exists (Z.to_nat ((d - s) / limit)). split; [exact Hi|].
    destruct (split_days_chunk s e limit _ Hl Hd Hi) as [A B].
    rewrite A, B, Z2Nat.id by exact Q.
    assert (d <= e) by (destruct ((e - s) mod limit =? 0); lia).
    nia.
  - intros i j Hi Hj Ini Inj.
    destruct (split_days_chunk s e limit i Hl Hd Hi) as [Ai Bi].
    destruct (split_days_chunk s e limit j Hl Hd Hj) as [Aj Bj].
    rewrite Ai, Bi in Ini. rewrite Aj, Bj in Inj. nia.
Qed.

Lemma chunks_partition_witness :
  exists sd ed,
    split_dates_by_limit "01/01/17" "12/31/18" 90 mdy []
    = (Returned (Some (dates_dict mdy sd ed)), [])
    /\ List.length ed = List.length sd
    /\ forall d,
         ((exists i, (i < List.length sd)%nat /\ nth i sd 0 <= d <= nth i ed 0)
          <-> 17167 <= d <= (if (17896 - 17167) mod 90 =? 0 then 17896 - 1 else 17896))
         /\ (forall i j, (i < List.length sd)%nat -> (j < List.length sd)%nat ->
               nth i sd 0 <= d <= nth i ed 0 -> nth j sd 0 <= d <= nth j ed 0 ->
               i = j).
Proof.
  apply (chunks_partition mdy "01/01/17" "12/31/18" 90 17167 17896 []).
  - split; [vm_compute; reflexivity | unfold Timestamp_min_day, Timestamp_max_day; lia].
  - split; [vm_compute; reflexivity | unfold Timestamp_min_day, Timestamp_max_day; lia].
  - lia.
  - lia.
  - unfold Timestamp_max_day. lia.
  - vm_compute. discriminate.
Defined.

(** X5. Under the same conditions and for a pattern that reads back the
    strings it writes for the days of the span, every string of the result
    parses under the pattern: the i-th start date to start + i * limit, the
    i-th end date to the end of that chunk. *)
Theorem returned_strings_parse_back f start_date end_date limit s e out :
  reads f start_date s -> reads f end_date e ->
  0 < limit -> limit <= e - s -> e - s <= Timestamp_max_day ->
  next_start s e limit <= Timestamp_max_day ->
  (forall d, s <= d <= e -> strptime f (strftime f d) = Some d) ->
  exists starts ends,
    split_dates_by_limit start_date end_date limit f out
    = (Returned (Some [("start_dates"%string, starts); ("end_dates"%string, ends)]),
       out)
    /\ List.length ends = List.length starts
    /\ forall i, (i < List.length starts)%nat ->
         strptime f (nth i starts EmptyString) = Some (s + Z.of_nat i * limit)
         /\ strptime f (nth i ends EmptyString)
            = Some (Z.min (s + (Z.of_nat i + 1) * limit - 1) e).
Proof.
  intros Hs He Hl Hd Hmax Hn Hback.
  exists (map (strftime f) (fst (split_days s e limit))),
         (map (strftime f) (snd (split_days s e limit))).
  split; [apply split_dates_by_limit_days; assumption|].
  rewrite !length_map. split; [apply split_days_length_ends|].
  intros i Hi.
  destruct (split_days_chunk s e limit i Hl Hd Hi) as [A B].
  pose proof (split_days_chunk_bounds s e limit i Hl Hd Hi) as C.
  rewrite !nth_map_strftime by (rewrite ?split_days_length_ends; exact Hi).
  rewrite A, B. split; apply Hback; lia.
Qed.

Lemma returned_strings_parse_back_witness :
  exists starts ends,
    split_dates_by_limit "01/01/17" "12/31/18" 90 mdy []
    = (Returned (Some [("start_dates"%string, starts); ("end_dates"%string, ends)]),
       [])
    /\ List.length ends = List.length starts
    /\ forall i, (i < List.length starts)%nat ->
         strptime mdy (nth i starts EmptyString) = Some (17167 + Z.of_nat i * 90)
         /\ strptime mdy (nth i ends EmptyString)
            = Some (Z.min (17167 + (Z.of_nat i + 1) * 90 - 1) 17896).
Proof.
  apply (returned_strings_parse_back mdy "01/01/17" "12/31/18" 90 17167 17896 []).
  - split; [vm_compute; reflexivity | unfold Timestamp_min_day, Timestamp_max_day; lia].
  - split; [vm_compute; reflexivity | unfold Timestamp_min_day, Timestamp_max_day; lia].
  - lia.
  - lia.
  - unfold Timestamp_max_day. lia.
  - vm_compute. discriminate.
  - intros d Hd. apply mdy_reads_back. lia.
Defined.

(** X6. Under the same conditions every chunk of the result is within the
    limit: every start date has its end date, and the function called
    again on the i-th start date and the i-th end date, with the same limit
    and pattern, returns [None]. *)
Theorem chunk_needs_no_split f start_date end_date limit s e out :
  reads f start_date s -> reads f end_date e ->
  0 < limit -> limit <= e - s -> e - s <= Timestamp_max_day ->
  next_start s e limit <= Timestamp_max_day ->
  (forall d, s <= d <= e -> strptime f (strftime f d) = Some d) ->
  exists starts ends,
    split_dates_by_limit start_date end_date limit f out
    = (Returned (Some [("start_dates"%string, starts); ("end_dates"%string, ends)]),
       out)
    /\ List.length ends = List.length starts
    /\ forall i, (i < List.length starts)%nat ->
         split_dates_by_limit (nth i starts EmptyString) (nth i ends EmptyString)
           limit f out
         = (Returned None, out).
Proof.
  intros Hs He Hl Hd Hmax Hn Hback.
  exists (map (strftime f) (fst (split_days s e limit))),
         (map (strftime f) (snd (split_days s e limit))).
  split; [apply split_dates_by_limit_days; assumption|].
  rewrite !length_map. split; [apply split_days_length_ends|].
  intros i Hi.
  destruct (split_days_chunk s e limit i Hl Hd Hi) as [A B].
  pose proof (split_days_chunk_bounds s e limit i Hl Hd Hi) as C.
  destruct Hs as [_ Rs]. destruct He as [_ Re].
  rewrite !nth_map_strftime by (rewrite ?split_days_length_ends; exact Hi).
  rewrite A, B.
  apply (split_dates_by_limit_none f _ _ limit (s + Z.of_nat i * limit)
           (Z.min (s + (Z.of_nat i + 1) * limit - 1) e)).
  - split; [apply Hback; lia | lia].
  - split; [apply Hback; lia | lia].
  - unfold Timestamp_min_day, Timestamp_max_day in *. lia.
  - unfold Timestamp_min_day, Timestamp_max_day in *. lia.
  - lia.
Qed.

Lemma chunk_needs_no_split_witness :
  exists starts ends,
    split_dates_by_limit "01/01/17" "12/31/18" 90 mdy []
    = (Returned (Some [("start_dates"%string, starts); ("end_dates"%string, ends)]),
       [])
    /\ List.length ends = List.length starts
    /\ forall i, (i < List.length starts)%nat ->
         split_dates_by_limit (nth i starts EmptyString) (nth i ends EmptyString)
           90 mdy []
         = (Returned None, []).
Proof.
  apply (chunk_needs_no_split mdy "01/01/17" "12/31/18" 90 17167 17896 []).
  - split; [vm_compute; reflexivity | unfold Timestamp_min_day, Timestamp_max_day; lia].
  - split; [vm_compute; reflexivity | unfold Timestamp_min_day, Timestamp_max_day; lia].
  - lia.
  - lia.
  - unfold Timestamp_max_day. lia.
  - vm_compute. discriminate.
  - intros d Hd. apply mdy_reads_back. lia.
Defined.

(* ===================================================================== *)
(** ** determine_timestamps, add_days_to_date, get_latest_csv *)
(* ===================================================================== *)

Lemma date_of_mono a b : a <= b -> date_of a <= date_of b.
Proof.
  intros H. unfold date_of. apply Z.div_le_mono; [|exact H].
  pose proof NS_PER_DAY_gt_1. lia.
Qed.

Lemma fold_min_spec l : forall a,
  (forall x, In x (a :: l) -> fold_left Z.min l a <= x)
  /\ In (fold_left Z.min l a) (a :: l).
Proof.
  induction l as [|y l IH]; intros a; simpl.
  - split; [intros x [E|[]]; lia | left; reflexivity].
  - destruct (IH (Z.min a y)) as [Hle Hin]. split.
    + intros x [E|[E|Hx]].
      * subst x. specialize (Hle (Z.min a y) (or_introl eq_refl)). lia.
      * subst x. specialize (Hle (Z.min a y) (or_introl eq_refl)). lia.
      * apply Hle. right. exact Hx.
    + destruct Hin as [Hin|Hin]; [|right; right; exact Hin].
      rewrite <- Hin. destruct (Z.min_spec a y) as [[_ ->]|[_ ->]]; auto.
Qed.

Lemma fold_max_spec l : forall a,
  (forall x, In x (a :: l) -> x <= fold_left Z.max l a)
  /\ In (fold_left Z.max l a) (a :: l).
Proof.
  induction l as [|y l IH]; intros a; simpl.
  - split; [intros x [E|[]]; lia | left; reflexivity].
  - destruct (IH (Z.max a y)) as [Hle Hin]. split.
    + intros x [E|[E|Hx]].
      * subst x. specialize (Hle (Z.max a y) (or_introl eq_refl)). lia.
      * subst x. specialize (Hle (Z.max a y) (or_introl eq_refl)). lia.
      * apply Hle. right. exact Hx.
    + destruct Hin as [Hin|Hin]; [|right; right; exact Hin].
      rewrite <- Hin. destruct (Z.max_spec a y) as [[_ ->]|[_ ->]]; auto.
Qed.

(** X7. The start date that [determine_timestamps] returns is never a day
    that has data.  It is the requested day when that lies before all data,
    and then the requested day and the first timestamp of the data are
    printed; otherwise it is the day after the last day of data, and nothing
    is printed.  The end date returned is the day of the requested end. *)
Theorem determine_timestamps_start_outside_data df start end_ out :
  exists start' out',
    determine_timestamps df start end_ out = (Returned (start', date_of end_), out')
    /\ (forall t, In t (stamps df) -> date_of t <> start')
    /\ (((forall t, In t (stamps df) -> date_of start < date_of t)
         /\ start' = date_of start
         /\ out' = out ++ [date_str (date_of start); Timestamp_str (index_min df)])
        \/ ((exists t, In t (stamps df) /\ date_of t <= date_of start)
            /\ (exists t, In t (stamps df) /\ start' = date_of t + 1
                          /\ forall t', In t' (stamps df) -> date_of t' <= date_of t)
            /\ out' = out)).
Proof.
  unfold determine_timestamps.
  destruct (fold_min_spec (more_stamps df) (first_stamp df)) as [Hmin Hmin_in].
  destruct (fold_max_spec (more_stamps df) (first_stamp df)) as [Hmax Hmax_in].
  fold (index_min df) in Hmin, Hmin_in. fold (index_max df) in Hmax, Hmax_in.
  fold (stamps df) in Hmin, Hmin_in, Hmax, Hmax_in.
  destruct (Z.ltb_spec (date_of start) (date_of (index_min df))) as [Hlt|Hge].
  - eexists _, _. split; [reflexivity|]. split.
    + intros t Ht. pose proof (date_of_mono _ _ (Hmin t Ht)). lia.
    + left. split; [|split].
      * intros t Ht. pose proof (date_of_mono _ _ (Hmin t Ht)). lia.
      * reflexivity.
      * unfold bind, print_line, ret. cbn [fst snd].
        rewrite <- app_assoc. reflexivity.
  - eexists _, _. split; [reflexivity|]. split.
    + intros t Ht. pose proof (date_of_mono _ _ (Hmax t Ht)). lia.
    + right. split; [|split].
      * exists (index_min df). split; [exact Hmin_in | exact Hge].
      * exists (index_max df). split; [exact Hmax_in|]. split; [reflexivity|].
        intros t Ht. apply date_of_mono, Hmax, Ht.
      * reflexivity.
Qed.

(** X8. When some data lies on or before the requested start day,
    [determine_timestamps] prints nothing and returns as start the day after
    the last day of data, whatever start was requested. *)
Theorem determine_timestamps_resumes_after_data df start end_ out :
  (exists t, In t (stamps df) /\ date_of t <= date_of start) ->
  exists start',
    determine_timestamps df start end_ out = (Returned (start', date_of end_), out)
    /\ (forall t, In t (stamps df) -> date_of t < start')
    /\ (exists t, In t (stamps df) /\ date_of t + 1 = start').
Proof.
  intros (t0 & Ht0 & Hle). unfold determine_timestamps.
  destruct (fold_min_spec (more_stamps df) (first_stamp df)) as [Hmin _].
  destruct (fold_max_spec (more_stamps df) (first_stamp df)) as [Hmax Hin].
  fold (index_min df) in Hmin. fold (index_max df) in Hmax, Hin.
  fold (stamps df) in Hmin, Hmax, Hin.
  destruct (Z.ltb_spec (date_of start) (date_of (index_min df))) as [Hlt|Hge].
  - pose proof (date_of_mono _ _ (Hmin t0 Ht0)). lia.
  - eexists. split; [reflexivity|]. split.
    + intros t Ht. pose proof (date_of_mono _ _ (Hmax t Ht)). lia.
    + exists (index_max df). split; [exact Hin|reflexivity].
Qed.

Lemma determine_timestamps_resumes_after_data_witness :
  exists start',
    determine_timestamps {| first_stamp := 3 * NS_PER_DAY + 5;
                            more_stamps := [7 * NS_PER_DAY; 4 * NS_PER_DAY] |}
      (5 * NS_PER_DAY) (9 * NS_PER_DAY) []
    = (Returned (start', date_of (9 * NS_PER_DAY)), [])
    /\ (forall t, In t (stamps {| first_stamp := 3 * NS_PER_DAY + 5;
                                  more_stamps := [7 * NS_PER_DAY; 4 * NS_PER_DAY] |}) ->
                  date_of t < start')
    /\ (exists t, In t (stamps {| first_stamp := 3 * NS_PER_DAY + 5;
                                  more_stamps := [7 * NS_PER_DAY; 4 * NS_PER_DAY] |})
                  /\ date_of t + 1 = start').
Proof.
  apply (determine_timestamps_resumes_after_data
           {| first_stamp := 3 * NS_PER_DAY + 5;
              more_stamps := [7 * NS_PER_DAY; 4 * NS_PER_DAY] |}
           (5 * NS_PER_DAY) (9 * NS_PER_DAY) []).
  exists (4 * NS_PER_DAY). split.
  - simpl. right. right. left. reflexivity.
  - vm_compute. discriminate.
Defined.

(** X14. When the data reaches back to the requested start day and
    forward to the requested end day or beyond, the start date that
    [determine_timestamps] returns is after the end date it returns: the
    range left to fetch is empty. *)
Theorem determine_timestamps_nothing_left df start end_ out :
  (exists t, In t (stamps df) /\ date_of t <= date_of start) ->
  (exists t, In t (stamps df) /\ date_of end_ <= date_of t) ->
  exists start' end',
    determine_timestamps df start end_ out = (Returned (start', end'), out)
    /\ end' < start'.
Proof.
  intros (t0 & Ht0 & Hle) (t1 & Ht1 & Hge). unfold determine_timestamps.
  destruct (fold_min_spec (more_stamps df) (first_stamp df)) as [Hmin _].
  destruct (fold_max_spec (more_stamps df) (first_stamp df)) as [Hmax _].
  fold (index_min df) in Hmin. fold (index_max df) in Hmax.
  fold (stamps df) in Hmin, Hmax.
  destruct (Z.ltb_spec (date_of start) (date_of (index_min df))) as [Hlt|_].
  - pose proof (date_of_mono _ _ (Hmin t0 Ht0)). lia.
  - eexists _, _. split; [reflexivity|].
    pose proof (date_of_mono _ _ (Hmax t1 Ht1)). lia.
Qed.

Lemma determine_timestamps_nothing_left_witness :
  exists start' end',
    determine_timestamps {| first_stamp := 3 * NS_PER_DAY + 5;
                            more_stamps := [7 * NS_PER_DAY; 4 * NS_PER_DAY] |}
      (5 * NS_PER_DAY) (6 * NS_PER_DAY) []
    = (Returned (start', end'), [])
    /\ end' < start'.
Proof.
  apply (determine_timestamps_nothing_left
           {| first_stamp := 3 * NS_PER_DAY + 5;
              more_stamps := [7 * NS_PER_DAY; 4 * NS_PER_DAY] |}
           (5 * NS_PER_DAY) (6 * NS_PER_DAY) []).
  - exists (4 * NS_PER_DAY). split.
    + simpl. right. right. left. reflexivity.
    + vm_compute. discriminate.
  - exists (7 * NS_PER_DAY). split.
    + simpl. right. left. reflexivity.
    + vm_compute. discriminate.
Defined.

(** A requested start before the data is kept, and the two dates are
    printed. *)
Example determine_timestamps_before_data :
  determine_timestamps {| first_stamp := 17168 * NS_PER_DAY + 3600000000000;
                          more_stamps := [17170 * NS_PER_DAY] |}
    (17167 * NS_PER_DAY) (17200 * NS_PER_DAY) []
  = (Returned (17167, 17200), ["2017-01-01"; "2017-01-02 01:00:00"]%string).
Proof. vm_compute. reflexivity. Qed.

(** X9. For a parser [pd.Timestamp(date)] that reads the eight-digit
    string of a day in its range as the midnight of that day,
    [add_days_to_date] composes under the default pattern as long as no
    date or duration leaves the range of pandas: for a day d from
    1677-09-22 to 2262-04-11 with d + a and d + a + b in that range too,
    and a, b, a + b of at most 106751 days either way, adding a days to the
    string of day d and then b days to the result gives the string of day
    d + a + b, as adding a + b days at once does. *)
Theorem add_days_to_date_twice (Timestamp_of_string : string -> option Timestamp)
    d a b out :
  (forall x, Timestamp_min_day <= x <= Timestamp_max_day ->
             Timestamp_of_string (strftime Ymd x) = Some (x * NS_PER_DAY)) ->
  Timestamp_min_day <= d <= Timestamp_max_day ->
  Timestamp_min_day <= d + a <= Timestamp_max_day ->
  Timestamp_min_day <= d + a + b <= Timestamp_max_day ->
  Timestamp_min_day <= a <= Timestamp_max_day ->
  Timestamp_min_day <= b <= Timestamp_max_day ->
  Timestamp_min_day <= a + b <= Timestamp_max_day ->
  (s1 <- add_days_to_date Timestamp_of_string (strftime Ymd d) a Ymd ;;
   add_days_to_date Timestamp_of_string s1 b Ymd) out
  = (Returned (strftime Ymd (d + a + b)), out)
  /\ add_days_to_date Timestamp_of_string (strftime Ymd d) (a + b) Ymd out
     = (Returned (strftime Ymd (d + a + b)), out).
Proof.
  intros HP Hd Hda Hdab Ha Hb Hab.
  assert (Step : forall x n o,
            Timestamp_min_day <= x <= Timestamp_max_day ->
            Timestamp_min_day <= n <= Timestamp_max_day ->
            Timestamp_min_day <= x + n <= Timestamp_max_day ->
            add_days_to_date Timestamp_of_string (strftime Ymd x) n Ymd o
            = (Returned (strftime Ymd (x + n)), o)).
  { intros x n o Hx Hn Hxn. unfold add_days_to_date. rewrite (HP x Hx), bind_ret.
    rewrite (Timedelta_days_ok _ Hn), bind_ret.
    unfold Timestamp_add.
    replace (x * NS_PER_DAY + n * NS_PER_DAY) with ((x + n) * NS_PER_DAY) by ring.
    rewrite (proj2 (in_range_days _) Hxn), bind_ret.
    unfold ret, Timestamp_strftime. rewrite date_of_midnight. reflexivity. }
  split.
  - unfold bind at 1. rewrite (Step d a out Hd Ha Hda).
    rewrite (Step (d + a) b out Hda Hb Hdab). reflexivity.
  - rewrite (Step d (a + b) out Hd Hab) by lia. do 3 f_equal. lia.
Qed.

Lemma add_days_to_date_twice_witness :
  (s1 <- add_days_to_date
           (fun s => option_map (fun x => x * NS_PER_DAY) (strptime Ymd s))
           (strftime Ymd 17532) 7 Ymd ;;
   add_days_to_date
     (fun s => option_map (fun x => x * NS_PER_DAY) (strptime Ymd s)) s1 7 Ymd) []
  = (Returned (strftime Ymd (17532 + 7 + 7)), [])
  /\ add_days_to_date
       (fun s => option_map (fun x => x * NS_PER_DAY) (strptime Ymd s))
       (strftime Ymd 17532) (7 + 7) Ymd []
     = (Returned (strftime Ymd (17532 + 7 + 7)), []).
Proof.
  apply (add_days_to_date_twice
           (fun s => option_map (fun x => x * NS_PER_DAY) (strptime Ymd s))
           17532 7 7 []).
  - intros x Hx. rewrite Ymd_reads_back by exact Hx. reflexivity.
  - unfold Timestamp_min_day, Timestamp_max_day. lia.
  - unfold Timestamp_min_day, Timestamp_max_day. lia.
  - unfold Timestamp_min_day, Timestamp_max_day. lia.
  - unfold Timestamp_min_day, Timestamp_max_day. lia.
  - unfold Timestamp_min_day, Timestamp_max_day. lia.
  - unfold Timestamp_min_day, Timestamp_max_day. lia.
Defined.

(** Past the last day of [pd.Timestamp] the call raises. *)
Example add_days_to_date_out_of_range :
  add_days_to_date (fun s => option_map (fun x => x * NS_PER_DAY) (strptime Ymd s))
    "22620411" 1 Ymd []
  = (Raised OutOfBoundsDatetime, []).
Proof. vm_compute. reflexivity. Qed.

Section LatestCsvFacts.

Variables frame err : Type.
Variable is_ValueError : err -> bool.
Variable str_err : err -> string.
Variable max_empty : err.
Variable glob : string -> list string.
Variable getctime : string -> Z.
Variable read_csv : string -> frame + err.
Variable os_remove : string -> option err.

Lemma max_by_ctime_spec files : forall best,
  In (max_by_ctime getctime best files) (best :: files)
  /\ forall g, In g (best :: files) ->
       getctime g <= getctime (max_by_ctime getctime best files).
Proof.
  induction files as [|x files IH]; intros best; simpl.
  - split; [left; reflexivity|]. intros g [E|[]]. subst g. lia.
  - destruct (IH (if getctime best <? getctime x then x else best)) as [Hin Hle].
    split.
    + destruct Hin as [Hin|Hin]; [|right; right; exact Hin].
      rewrite <- Hin. destruct (getctime best <? getctime x); auto.
    + intros g Hg.
      assert (Hb : getctime best <= getctime (if getctime best <? getctime x then x else best)
                   /\ getctime x <= getctime (if getctime best <? getctime x then x else best)).
      { destruct (Z.ltb_spec (getctime best) (getctime x)); lia. }
      pose proof (Hle _ (or_introl eq_refl)) as Htop.
      destruct Hg as [E|[E|Hg]].
      * subst g. lia.
      * subst g. lia.
      * apply Hle. right. exact Hg.
Qed.

(** X10. When [get_latest_csv] returns, it returns the frame read from a
    file of the listing whose creation time is the greatest. *)
Theorem get_latest_csv_returns_newest filepath delete out df out' :
  get_latest_csv frame err is_ValueError str_err max_empty glob getctime read_csv
    os_remove filepath delete out = (Csv_returned df, out') ->
  exists file,
    In file (glob (filepath ++ "/*.csv"))
    /\ read_csv file = inl df
    /\ forall g, In g (glob (filepath ++ "/*.csv")) -> getctime g <= getctime file.
Proof.
  unfold get_latest_csv.
  destruct (glob (filepath ++ "/*.csv")) as [|x files] eqn:G; [discriminate|].
  destruct (max_by_ctime_spec files x) as [Hin Hle].
  destruct (read_csv (max_by_ctime getctime x files)) as [df'|e] eqn:R.
  - intros H. injection H as -> _. eauto.
  - destruct (is_ValueError e); discriminate.
Qed.

End LatestCsvFacts.

Lemma get_latest_csv_returns_newest_witness :
  exists file,
    In file ((fun _ : string => ["a.csv"; "b.csv"; "c.csv"]%string)
               ("unzipped" ++ "/*.csv")%string)
    /\ (fun f : string => @inl nat string (String.length f)) file = inl 5%nat
    /\ forall g,
         In g ((fun _ : string => ["a.csv"; "b.csv"; "c.csv"]%string)
                 ("unzipped" ++ "/*.csv")%string) ->
         (fun f : string => if String.eqb f "b.csv" then 2 else 1) g
         <= (fun f : string => if String.eqb f "b.csv" then 2 else 1) file.
Proof.
  apply (get_latest_csv_returns_newest nat string (fun _ => true) (fun e => e)
           "max() arg is an empty sequence"%string
           (fun _ => ["a.csv"; "b.csv"; "c.csv"]%string)
           (fun f => if String.eqb f "b.csv" then 2 else 1)
           (fun f => inl (String.length f)) (fun _ => None)
           "unzipped"%string true [] 5%nat []).
  reflexivity.
Defined.

(* ===================================================================== *)
(** ** The requests of Oasis.get *)
(* ===================================================================== *)

Lemma dict_get_dates f sd ed :
  dict_get "start_dates" (dates_dict f sd ed) = Some (map (strftime f) sd)
  /\ dict_get "end_dates" (dates_dict f sd ed) = Some (map (strftime f) ed).
Proof. split; reflexivity. Qed.

Lemma Oasis_get_payloads_whole start_date end_date s e out :
  reads Ymd start_date s -> reads Ymd end_date e ->
  - Timestamp_max_day <= e - s -> e - s < 30 ->
  Oasis_get_payloads start_date end_date out
  = (Returned [payload start_date end_date], out).
Proof.
  intros Hs He Hlo Hd. unfold Oasis_get_payloads, bind.
  rewrite (split_dates_by_limit_none Ymd _ _ 30 s e out Hs He)
    by (unfold Timestamp_min_day, Timestamp_max_day in *; lia).
  reflexivity.
Qed.

Lemma Oasis_get_payloads_split start_date end_date s e out :
  reads Ymd start_date s -> reads Ymd end_date e ->
  30 <= e - s -> e - s <= Timestamp_max_day ->
  next_start s e 30 <= Timestamp_max_day ->
  Oasis_get_payloads start_date end_date out
  = (Returned (map (fun se => payload (fst se) (snd se))
                   (combine (map (strftime Ymd) (fst (split_days s e 30)))
                            (map (strftime Ymd) (snd (split_days s e 30))))), out).
Proof.
  intros Hs He Hd Hmax Hn. unfold Oasis_get_payloads, bind.
  rewrite (split_dates_by_limit_days Ymd _ _ s e 30 Hs He ltac:(lia) Hd Hmax out Hn).
  destruct (dict_get_dates Ymd (fst (split_days s e 30)) (snd (split_days s e 30)))
    as [-> ->].
  reflexivity.
Qed.

(** The i-th payload of a split request. *)
Lemma nth_split_payload s e i :
  30 <= e - s ->
  (i < List.length (fst (split_days s e 30)))%nat ->
  nth i (map (fun se => payload (fst se) (snd se))
             (combine (map (strftime Ymd) (fst (split_days s e 30)))
                      (map (strftime Ymd) (snd (split_days s e 30))))) []
  = payload (strftime Ymd (s + Z.of_nat i * 30))
            (strftime Ymd (Z.min (s + (Z.of_nat i + 1) * 30 - 1) e)).
Proof.
  intros Hd Hi.
  destruct (split_days_chunk s e 30 i ltac:(lia) Hd Hi) as [A B].
  set (g := fun se : string * string => payload (fst se) (snd se)).
  rewrite (nth_indep _ [] (g (EmptyString, EmptyString))).
  2:{ rewrite length_map, length_combine, !length_map, split_days_length_ends. lia. }
  rewrite map_nth, combine_nth
    by (rewrite !length_map; symmetry; apply split_days_length_ends).
  rewrite !nth_map_strftime by (rewrite ?split_days_length_ends; exact Hi).
  rewrite A, B. reflexivity.
Qed.

Lemma length_split_payloads s e :
  List.length (map (fun se => payload (fst se) (snd se))
                 (combine (map (strftime Ymd) (fst (split_days s e 30)))
                          (map (strftime Ymd) (snd (split_days s e 30)))))
  = List.length (fst (split_days s e 30)).
Proof.
  rewrite length_map, length_combine, !length_map, split_days_length_ends. lia.
Qed.

(** X12. For dates that [pd.to_datetime] reads under ["%Y%m%d"], with
    start <= end and a span of at most 106751 days, and, when the span
    reaches 30 days, start + ceil(span / 30) * 30 on or before 2262-04-11:
    [Oasis.get] sends one request when the span is under 30 days and
    ceil(span / 30) requests otherwise; the dates of every request parse
    and lie within the requested range, the start date not after the end
    date and at most 29 days before it. *)
Theorem Oasis_get_requests_within_limit start_date end_date s e out :
  reads Ymd start_date s -> reads Ymd end_date e ->
  s <= e -> e - s <= Timestamp_max_day ->
  e - s < 30 \/ next_start s e 30 <= Timestamp_max_day ->
  exists ps,
    fst (Oasis_get_payloads start_date end_date out) = Returned ps
    /\ Z.of_nat (List.length ps) = (if e - s <? 30 then 1 else ceil_div (e - s) 30)
    /\ forall p, In p ps ->
         exists a b da db,
           p = payload a b
           /\ strptime Ymd a = Some da /\ strptime Ymd b = Some db
           /\ s <= da /\ da <= db /\ db <= e /\ db - da <= 29.
Proof.
  intros Hs He Hse Hmax Hn.
  pose proof Hs as [Ps Rs]. pose proof He as [Pe Re].
  destruct (Z.ltb_spec (e - s) 30) as [Hd|Hd].
  - eexists. split.
    { rewrite (Oasis_get_payloads_whole _ _ s e) by (assumption || lia).
      reflexivity. }
    split; [reflexivity|].
    intros p [<-|[]]. exists start_date, end_date, s, e. repeat split; auto; lia.
  - destruct Hn as [Hn|Hn]; [lia|].
    eexists. split.
    { rewrite (Oasis_get_payloads_split _ _ s e) by assumption. reflexivity. }
    split.
    { rewrite length_split_payloads. apply split_days_length_starts; lia. }
    intros p Hp. apply (In_nth _ _ []) in Hp. destruct Hp as (i & Hi & <-).
    rewrite length_split_payloads in Hi.
    rewrite nth_split_payload by assumption.
    pose proof (split_days_chunk_bounds s e 30 i ltac:(lia) Hd Hi) as B.
    eexists _, _, _, _. split; [reflexivity|].
    split; [apply Ymd_reads_back; unfold Timestamp_min_day, Timestamp_max_day in *; lia|].
    split; [apply Ymd_reads_back; unfold Timestamp_min_day, Timestamp_max_day in *; lia|].
    lia.
Qed.

Lemma Oasis_get_requests_within_limit_witness :
  (exists ps,
     fst (Oasis_get_payloads "20180101" "20180301" []) = Returned ps
     /\ Z.of_nat (List.length ps)
        = (if 17591 - 17532 <? 30 then 1 else ceil_div (17591 - 17532) 30)
     /\ forall p, In p ps ->
          exists a b da db,
            p = payload a b
            /\ strptime Ymd a = Some da /\ strptime Ymd b = Some db
            /\ 17532 <= da /\ da <= db /\ db <= 17591 /\ db - da <= 29)
  /\ (exists ps,
        fst (Oasis_get_payloads "20180101" "20180115" []) = Returned ps
        /\ Z.of_nat (List.length ps)
           = (if 17546 - 17532 <? 30 then 1 else ceil_div (17546 - 17532) 30)
        /\ forall p, In p ps ->
             exists a b da db,
               p = payload a b
               /\ strptime Ymd a = Some da /\ strptime Ymd b = Some db
               /\ 17532 <= da /\ da <= db /\ db <= 17546 /\ db - da <= 29).
Proof.
  split.
  - apply (Oasis_get_requests_within_limit "20180101" "20180301" 17532 17591 []).
    + split; [vm_compute; reflexivity | unfold Timestamp_min_day, Timestamp_max_day; lia].
    + split; [vm_compute; reflexivity | unfold Timestamp_min_day, Timestamp_max_day; lia].
    + lia.
    + unfold Timestamp_max_day. lia.
    + right. vm_compute. discriminate.
  - apply (Oasis_get_requests_within_limit "20180101" "20180115" 17532 17546 []).
    + split; [vm_compute; reflexivity | unfold Timestamp_min_day, Timestamp_max_day; lia].
    + split; [vm_compute; reflexivity | unfold Timestamp_min_day, Timestamp_max_day; lia].
    + lia.
    + unfold Timestamp_max_day. lia.
    + left. lia.
Defined.

(** X13. Under the same conditions, when [Oasis.get] splits a range, the
    start date of each request after the first is the day after the end
    date of the request before it; both carry the same time of day, so the
    day between them is in no request. *)
Theorem Oasis_get_requests_skip_a_day start_date end_date s e out :
  reads Ymd start_date s -> reads Ymd end_date e ->
  30 <= e - s -> e - s <= Timestamp_max_day ->
  next_start s e 30 <= Timestamp_max_day ->
  exists ps,
    fst (Oasis_get_payloads start_date end_date out) = Returned ps
    /\ Z.of_nat (List.length ps) = ceil_div (e - s) 30
    /\ forall i, (S i < List.length ps)%nat ->
         exists a b a' b' db da',
           nth i ps [] = payload a b /\ nth (S i) ps [] = payload a' b'
           /\ strptime Ymd b = Some db /\ strptime Ymd a' = Some da'
           /\ da' = db + 1.
Proof.
  intros Hs He Hd Hmax Hn.
  pose proof Hs as [Ps Rs]. pose proof He as [Pe Re].
  eexists. split.
  { rewrite (Oasis_get_payloads_split _ _ s e) by assumption. reflexivity. }
  split.
  { rewrite length_split_payloads. apply split_days_length_starts; lia. }
  intros i Hi. rewrite length_split_payloads in Hi.
  rewrite !nth_split_payload by (assumption || lia).
  pose proof (split_days_count s e 30 ltac:(lia) Hd) as C. cbv zeta in C.
  pose proof (chunk_index_le (S i) (Z.of_nat (List.length (fst (split_days s e 30))))
                30 ltac:(lia) ltac:(lia)) as M.
  assert (B : Z.min (s + (Z.of_nat i + 1) * 30 - 1) e = s + (Z.of_nat i + 1) * 30 - 1
              /\ s + Z.of_nat (S i) * 30 <= e).
  { revert C. destruct ((e - s) mod 30 =? 0); intros C; lia. }
  destruct B as [B1 B2]. rewrite B1.
  eexists _, _, _, _, _, _. split; [reflexivity|]. split; [reflexivity|].
  split; [apply Ymd_reads_back; unfold Timestamp_min_day, Timestamp_max_day in *; lia|].
  split; [apply Ymd_reads_back; unfold Timestamp_min_day, Timestamp_max_day in *; lia|].
  lia.
Qed.

Lemma Oasis_get_requests_skip_a_day_witness :
  exists ps,
    fst (Oasis_get_payloads "20180101" "20180301" []) = Returned ps
    /\ Z.of_nat (List.length ps) = ceil_div (17591 - 17532) 30
    /\ forall i, (S i < List.length ps)%nat ->
         exists a b a' b' db da',
           nth i ps [] = payload a b /\ nth (S i) ps [] = payload a' b'
           /\ strptime Ymd b = Some db /\ strptime Ymd a' = Some da'
           /\ da' = db + 1.
Proof.
  apply (Oasis_get_requests_skip_a_day "20180101" "20180301" 17532 17591 []).
  - split; [vm_compute; reflexivity | unfold Timestamp_min_day, Timestamp_max_day; lia].
  - split; [vm_compute; reflexivity | unfold Timestamp_min_day, Timestamp_max_day; lia].
  - lia.
  - unfold Timestamp_max_day. lia.
  - vm_compute. discriminate.
Defined.

(** The requests of the call in the docstring of [Oasis]. *)
Example Oasis_get_payloads_example :
  Oasis_get_payloads "20180101" "20180301" []
  = (Returned
       [[("startdatetime", "20180101T08:00-0000"); ("enddatetime", "20180130T08:00-0000")];
        [("startdatetime", "20180131T08:00-0000"); ("enddatetime", "20180301T08:00-0000")]]%string,
     []).
Proof. vm_compute. reflexivity. Qed.

(** At the end of the range of [pd.Timestamp] the last request is lost:
    its start date has no end date to be paired with. *)
Example Oasis_get_payloads_overflow :
  Oasis_get_payloads "22620301" "22620411" []
  = (Returned
       [[("startdatetime", "22620301T08:00-0000"); ("enddatetime", "22620330T08:00-0000")]]%string,
     [critical]).
Proof. vm_compute. reflexivity. Qed.
